(** * Oasis code-execution prelude: tool invocation client and confinement guards

    A shallow embedding of the two Python preludes that are prepended to
    user code:

    - [src/code/prelude.py]        (pipe variant: newline-delimited JSON over
                                    reserved file descriptors, plus the
                                    filesystem and process guards);
    - [src/cmd/sandbox/prelude.py] (HTTP variant: one POST per tool call,
                                    thread-per-call fan-out).

    Python values are modelled by the inductive [value]; exceptions by [exn];
    a call that may raise returns a [result].  Module-level globals become
    fields of an explicit state record that every operation threads. *)

From Stdlib Require Import String Ascii ZArith Lia Bool PrimFloat.
From Stdlib Require Import DecimalString DecimalNat Decimal.
From stdpp Require Import base list gmap strings.

Set Warnings "-register-all".

Local Open Scope string_scope.

(** ** Python values *)

(** JSON-compatible Python values, as produced by [json.loads] and accepted
    by [json.dumps].  A [dict] keeps its insertion order. *)
Inductive value : Type :=
| VNone
| VBool (b : bool)
| VInt (z : Z)
| VFloat (f : float)
| VStr (s : string)
| VList (l : list value)
| VDict (d : list (string * value)).

(** The exceptions the preludes raise or let escape. *)
Inductive exn : Type :=
| RuntimeError (msg : string)
| PermissionError (msg : string)
| JSONDecodeError
| ValueError
| RecursionError
| TypeError
| KeyError (key : string)
| AttributeError.

(** Outcome of a Python call: a returned value or a raised exception. *)
Inductive result (A : Type) : Type :=
| Return (a : A)
| Raise (e : exn).
Arguments Return {A} a.
Arguments Raise {A} e.

(** Python truthiness ([bool(v)]), used by [args or {}], [not line],
    [result.get("error")] and [isinstance(data, str) and data]. *)
Definition truthy (v : value) : bool :=
  match v with
  | VNone => false
  | VBool b => b
  | VInt z => negb (z =? 0)%Z
  | VFloat f => negb (PrimFloat.eqb f 0%float)
  | VStr s => negb (String.eqb s "")
  | VList l => match l with [] => false | _ => true end
  | VDict d => match d with [] => false | _ => true end
  end.

(** [x or y]. *)
Definition py_or (x y : value) : value := if truthy x then x else y.

(** [d.get(k)] on a dict: the value bound to [k], if any. *)
Fixpoint assoc (k : string) (d : list (string * value)) : option value :=
  match d with
  | [] => None
  | (k', v) :: d' => if String.eqb k k' then Some v else assoc k d'
  end.

(** [isinstance(v, str)]. *)
Definition is_str (v : value) : bool :=
  match v with VStr _ => true | _ => false end.

(** Positional and keyword arguments of a call ([*args, **kwargs]). *)
Record pyargs : Type := mk_pyargs {
  positional : list value;
  keywords : list (string * value)
}.

Definition no_args : pyargs := mk_pyargs [] [].

(** ** String helpers of the Python runtime *)

(** [s.startswith(p)]. *)
Definition startswith (s p : string) : bool := String.prefix p s.

(** [s.endswith("/")]. *)
Fixpoint ends_with_sep (s : string) : bool :=
  match s with
  | EmptyString => false
  | String c EmptyString => Ascii.eqb c "/"
  | String _ s' => ends_with_sep s'
  end.

(** [os.sep] on POSIX. *)
Definition sep : string := "/".

(** [os.path.join(a, b)] of posixpath, for one component [b]: an absolute
    [b] replaces [a]; otherwise [b] is appended after a separator (none is
    added when [a] is empty or already ends with one). *)
Definition path_join (a b : string) : string :=
  if startswith b sep then b
  else if String.eqb a "" || ends_with_sep a then a ++ b
  else a ++ sep ++ b.

(** [str(n)] for a non-negative integer: its decimal digits. *)
Definition str_of_nat (n : nat) : string :=
  NilEmpty.string_of_uint (Nat.to_uint n).

(** ** Raising and catching *)

#[global] Instance result_ret : MRet result := fun A a => Return a.
#[global] Instance result_bind : MBind result := fun A B f r =>
  match r with
  | Return a => f a
  | Raise e => Raise e
  end.

(** The library routines of the Python runtime that the preludes call but
    do not define. *)
Class PyRuntime : Type := {
  (** [json.loads(s)] on a [str]: the parsed value, or the exception it
      raises.  Text that is not JSON raises [JSONDecodeError]; an integer
      literal longer than the interpreter's digit limit raises a plain
      [ValueError] and nesting beyond its recursion limit raises
      [RecursionError]. *)
  json_loads : string -> result value;
  (** [json.dumps(v)]. *)
  json_dumps : value -> string;
  (** [str(v)] as an f-string renders a value that is not a [str]. *)
  py_repr : value -> string;
  (** The empty document is not JSON. *)
  json_loads_empty : json_loads "" = Raise JSONDecodeError;
  (** [json.loads] on a [str] raises nothing else. *)
  json_loads_raises : forall s e,
    json_loads s = Raise e ->
    e = JSONDecodeError \/ e = ValueError \/ e = RecursionError
}.

(** [f"{v}"]: a [str] is rendered as itself. *)
Definition format_value `{PyRuntime} (v : value) : string :=
  match v with
  | VStr s => s
  | _ => py_repr v
  end.

(** [json.loads(v)] on an arbitrary value: anything but a [str] is a
    [TypeError]. *)
Definition loads_value `{PyRuntime} (v : value) : result value :=
  match v with
  | VStr s => json_loads s
  | _ => Raise TypeError
  end.

(** The codec rule of the spec for a payload: a textual payload is re-read
    as JSON and the parsed value is kept when that works, the raw text
    otherwise; any other payload is kept as it is. *)
Definition reparse `{PyRuntime} (payload : value) : value :=
  match payload with
  | VStr s =>
      match json_loads s with
      | Return v => v
      | Raise _ => VStr s
      end
  | _ => payload
  end.

(** Whether [json.loads] on a textual payload raises something other than
    [JSONDecodeError]. *)
Definition parse_escapes `{PyRuntime} (payload : value) : bool :=
  match payload with
  | VStr s =>
      match json_loads s with
      | Return _ | Raise JSONDecodeError => false
      | Raise _ => true
      end
  | _ => false
  end.

(** What both preludes make of a payload: the parsed value of a string that
    is JSON, the string itself when [json.loads] raises [JSONDecodeError],
    the exception when it raises another one, and any other payload as it
    is. *)
Definition reread `{PyRuntime} (payload : value) : result value :=
  match payload with
  | VStr s =>
      match json_loads s with
      | Return v => Return v
      | Raise JSONDecodeError => Return (VStr s)
      | Raise e => Raise e
      end
  | _ => Return payload
  end.

(** An element of [results] that the batch loop turns into an element of
    its list without raising: an object that reports an error, or one whose
    payload [json.loads] either reads or refuses with [JSONDecodeError]. *)
Definition decodable `{PyRuntime} (r : value) : bool :=
  match r with
  | VDict d =>
      truthy (default VNone (assoc "error" d))
      || negb (parse_escapes (default (VStr "") (assoc "data" d)))
  | _ => false
  end.

(** [isinstance(v, dict)]. *)
Definition is_dict (v : value) : bool :=
  match v with VDict _ => true | _ => false end.

(** A dict without its bindings of key [k]. *)
Fixpoint drop_key (k : string) (d : list (string * value))
  : list (string * value) :=
  match d with
  | [] => []
  | (k', v) :: d' =>
      if String.eqb k k' then drop_key k d' else (k', v) :: drop_key k d'
  end.

(** A response document with any [id] member erased. *)
Definition strip_id (doc : value) : value :=
  match doc with
  | VDict d => VDict (drop_key "id" d)
  | _ => doc
  end.

(** [v.get(k, default)]: only a [dict] has [get]. *)
Definition py_get (v : value) (k : string) (default : value) : result value :=
  match v with
  | VDict d => Return (match assoc k d with Some x => x | None => default end)
  | _ => Raise AttributeError
  end.

(** [v[k]] for a string key [k]. *)
Definition py_getitem (v : value) (k : string) : result value :=
  match v with
  | VDict d =>
      match assoc k d with
      | Some x => Return x
      | None => Raise (KeyError k)
      end
  | _ => Raise TypeError
  end.

(** Whether a byte continues a UTF-8 sequence (10xxxxxx). *)
Definition is_continuation (c : ascii) : bool :=
  let n := nat_of_ascii c in (128 <=? n)%nat && (n <? 192)%nat.

(** The bytes of [s] grouped by code point, from the right: the
    continuation bytes still waiting for their leading byte, and the
    characters completed so far. *)
Fixpoint chars_from_right (s : string) : string * list value :=
  match s with
  | EmptyString => (EmptyString, [])
  | String c s' =>
      let (pending, done) := chars_from_right s' in
      if is_continuation c then (String c pending, done)
      else (EmptyString, VStr (String c pending) :: done)
  end.

(** The characters of a [str], each as a one-character [str].  A [str] is
    held as its UTF-8 bytes, so a character is a leading byte with the
    continuation bytes that follow it. *)
Definition chars (s : string) : list value := snd (chars_from_right s).

(** [iter(v)]: the elements a [for] loop or [list(v)] visits. *)
Definition py_iter (v : value) : result (list value) :=
  match v with
  | VList l => Return l
  | VDict d => Return (map (fun kv => VStr (fst kv)) d)
  | VStr s => Return (chars s)
  | _ => Raise TypeError
  end.

(** [f.readline()]: up to and including the first newline; the empty string
    at end of stream. *)
Fixpoint readline (s : string) : string * string :=
  match s with
  | EmptyString => (EmptyString, EmptyString)
  | String c s' =>
      if Ascii.eqb c "010" then (String c EmptyString, s')
      else let (l, r) := readline s' in (String c l, r)
  end.

Definition newline : string := String "010" EmptyString.

(** Whether [s] holds no newline character. *)
Fixpoint no_newline (s : string) : bool :=
  match s with
  | EmptyString => true
  | String c s' => negb (Ascii.eqb c "010") && no_newline s'
  end.

(** The text of a stream that carries the given lines, each ended by a
    newline. *)
Fixpoint lines_text (lines : list string) : string :=
  match lines with
  | [] => ""
  | l :: rest => l ++ newline ++ lines_text rest
  end.

(** The spec's predicate: a resolved path is inside the workspace iff it
    equals the root or starts with the root followed by a separator. *)
Definition inside (ws resolved : string) : bool :=
  String.eqb resolved ws || startswith resolved (ws ++ sep).

(** ** Confinement guards (src/code/prelude.py, "Safety guards") *)

Module Guard.

(** What a guarded entry point hands to the interpreter's original
    primitive.  A guard that raises hands over nothing: the primitive is not
    reached. *)
Inductive prim_call : Type :=
| BuiltinOpenFd (fd : Z) (args : pyargs)
| BuiltinOpen (resolved : string) (args : pyargs)
| OriginalRmtree (resolved : string) (args : pyargs)
| OriginalRemove (resolved : string) (args : pyargs)
| OriginalRmdir (resolved : string) (args : pyargs).

(** First argument of [open]: an integer file descriptor or a path. *)
Inductive path_arg : Type :=
| PathFd (fd : Z)
| PathStr (s : string).

Section Guards.

(** [os.path.realpath] on the filesystem and current directory the script
    runs with, on the paths it resolves.  Where it raises instead (a path
    with an embedded NUL gives ValueError) the guard raises with it, before
    any check and before any primitive is reached; the guards below cover
    the paths that are resolved. *)
Variable realpath : string -> string.

(** [_workspace = os.path.realpath(os.environ.get("_OASIS_WORKSPACE",
    os.getcwd()))], fixed when the prelude is loaded. *)
Variable _workspace : string.

Definition _safe_open (path : path_arg) (args : pyargs) : result prim_call :=
  match path with
  | PathFd fd => Return (BuiltinOpenFd fd args)
  | PathStr p =>
      let resolved := realpath (path_join _workspace p) in
      if negb (startswith resolved (_workspace ++ sep))
         && negb (String.eqb resolved _workspace)
      then Raise (PermissionError
             ("access denied: " ++ p ++ " is outside workspace ("
              ++ _workspace ++ ")"))
      else Return (BuiltinOpen resolved args)
  end.

Definition _safe_rmtree (path : string) (args : pyargs) : result prim_call :=
  let resolved := realpath path in
  if negb (startswith resolved (_workspace ++ sep))
  then Raise (PermissionError ("cannot delete outside workspace: " ++ path))
  else if String.eqb resolved _workspace
  then Raise (PermissionError "cannot delete workspace root")
  else Return (OriginalRmtree resolved args).

Definition _safe_remove (path : string) (args : pyargs) : result prim_call :=
  let resolved := realpath (path_join _workspace path) in
  if negb (startswith resolved (_workspace ++ sep))
  then Raise (PermissionError ("cannot delete outside workspace: " ++ path))
  else Return (OriginalRemove resolved args).

Definition _safe_rmdir (path : string) (args : pyargs) : result prim_call :=
  let resolved := realpath (path_join _workspace path) in
  if negb (startswith resolved (_workspace ++ sep))
  then Raise (PermissionError ("cannot delete outside workspace: " ++ path))
  else Return (OriginalRmdir resolved args).

End Guards.

(** *** Process entry points

    The prelude rebinds attributes of the [os] module and replaces the
    [subprocess] module in [sys.modules].  A module's [__dict__] is a finite
    map from attribute names to what the name is bound to. *)
Inductive binding : Type :=
| Original (qualname : string)
    (** the interpreter's own function, doing the real operation *)
| Stub (msg : string)
    (** [lambda *a, **kw: (_ for _ in ()).throw(PermissionError(msg))] *)
| Wrapper (name : string)
    (** one of the prelude's path guards above *)
| Data (v : value)
    (** an attribute that is not callable *).

Abbreviation module_dict := (gmap string binding).

Definition os_system_msg : string :=
  "os.system is blocked — use call_tool() instead".
Definition subprocess_msg : string :=
  "subprocess is blocked — use call_tool() instead".

(** [os.remove = _safe_remove], [os.rmdir = _safe_rmdir] and
    [os.system = lambda ...]: the three assignments the prelude makes on [os];
    every other attribute keeps its binding. *)
Definition patch_os (os : module_dict) : module_dict :=
  <["system" := Stub os_system_msg]>
    (<["rmdir" := Wrapper "_safe_rmdir"]>
       (<["remove" := Wrapper "_safe_remove"]> os)).

(** The [__dict__] of a module object just made by [type(sys)(name)]. *)
Definition fresh_module (name : string) : module_dict :=
  list_to_map
    [("__name__", Data (VStr name));
     ("__doc__", Data VNone);
     ("__package__", Data VNone);
     ("__loader__", Data VNone);
     ("__spec__", Data VNone)].

(** [sys.modules['subprocess'] = type(sys)('subprocess')] followed by the
    [__dict__.update] with its five entries. *)
Definition subprocess_stub : module_dict :=
  <["check_call" := Stub subprocess_msg]>
    (<["check_output" := Stub subprocess_msg]>
       (<["call" := Stub subprocess_msg]>
          (<["Popen" := Stub subprocess_msg]>
             (<["run" := Stub subprocess_msg]>
                (fresh_module "subprocess"))))).

(** Which function body a call [module.attr(...)] enters. *)
Inductive entered : Type :=
| RanOriginal (qualname : string) (args : pyargs)
| RanWrapper (name : string) (args : pyargs).

(** [module.attr(...)] for a name looked up in the module's [__dict__]:
    attribute lookup, then the call.  A stub raises before anything runs;
    an attribute that is not callable cannot be called. *)
Definition call_attr (m : module_dict) (attr : string) (args : pyargs)
  : result entered :=
  match m !! attr with
  | None => Raise AttributeError
  | Some (Original q) => Return (RanOriginal q args)
  | Some (Stub msg) => Raise (PermissionError msg)
  | Some (Wrapper w) => Return (RanWrapper w args)
  | Some (Data _) => Raise TypeError
  end.

(** The process-related part of CPython's [os] module before the prelude
    runs, with the two deletion primitives the prelude also rebinds. *)
Definition python_os : module_dict :=
  list_to_map
    [("system", Original "os.system");
     ("remove", Original "os.remove");
     ("rmdir", Original "os.rmdir");
     ("posix_spawn", Original "os.posix_spawn");
     ("execv", Original "os.execv");
     ("fork", Original "os.fork")].

(** *** A filesystem without symbolic links

    There [os.path.realpath] is lexical: the path is made absolute against
    the current directory, empty and [.] components are dropped and [..]
    removes the component before it (staying at the root). *)

(** [s.split(c)]. *)
Fixpoint split_on (c : ascii) (s : string) : list string :=
  match s with
  | EmptyString => [EmptyString]
  | String a s' =>
      if Ascii.eqb a c then EmptyString :: split_on c s'
      else match split_on c s' with
           | [] => [String a EmptyString]
           | h :: t => String a h :: t
           end
  end.

(** One component applied to the stack of components kept so far (innermost
    first). *)
Definition push_component (stack : list string) (comp : string)
  : list string :=
  if String.eqb comp "" || String.eqb comp "." then stack
  else if String.eqb comp ".." then tail stack
  else comp :: stack.

(** [sep.join(comps)] behind a leading separator. *)
Fixpoint join_components (comps : list string) : string :=
  match comps with
  | [] => ""
  | c :: cs => sep ++ c ++ join_components cs
  end.

Definition realpath_nolinks (cwd path : string) : string :=
  let comps := split_on "/" (path_join cwd path) in
  match rev (fold_left push_component comps []) with
  | [] => sep
  | kept => join_components kept
  end.

End Guard.

(** ** Pipe variant (src/code/prelude.py) *)

Module Pipe.

(** The module globals and the two reserved streams: [proto_out] holds the
    bytes written to fd 1 so far, [proto_in] the bytes of fd 0 not yet
    read. *)
Record state : Type := mk_state {
  _call_id : nat;
  _final_result : value;
  proto_out : string;
  proto_in : string
}.

(** The state when user code starts, given what the agent will send. *)
Definition initial (input : string) : state :=
  mk_state 0 VNone "" input.

(** An element of the list [call_tools_parallel] returns: a decoded payload
    or a [RuntimeError] object stored as a value. *)
Inductive slot : Type :=
| Payload (v : value)
| ErrorValue (e : exn).

Section Client.

Context `{PyRuntime}.

(** [f"tc_{_call_id}"]. *)
Definition correlation_id (n : nat) : string := "tc_" ++ str_of_nat n.

(** The request document of a single call. *)
Definition tool_call_msg (cid name : string) (args : value) : value :=
  VDict [("type", VStr "tool_call"); ("id", VStr cid);
         ("name", VStr name); ("args", py_or args (VDict []))].

(** The [try] / [except (JSONDecodeError, TypeError, KeyError)] that ends
    [call_tool] and the loop body of [call_tools_parallel]. *)
Definition decode_data (resp : value) : result value :=
  match py_getitem resp "data" ≫= loads_value with
  | Return v => Return v
  | Raise JSONDecodeError | Raise TypeError | Raise (KeyError _) =>
      py_get resp "data" (VStr "")
  | Raise e => Raise e
  end.

(** [resp.get("type") == "tool_error"]. *)
Definition is_tool_error (ty : value) : bool :=
  match ty with
  | VStr s => String.eqb s "tool_error"
  | _ => false
  end.

(** Lines 30-35, on the parsed response. *)
Definition decode_response (name : string) (resp : value) : result value :=
  ty ← py_get resp "type" VNone;
  if is_tool_error ty then
    err ← py_getitem resp "error";
    Raise (RuntimeError
      ("Tool '" ++ name ++ "' failed: " ++ format_value err))
  else decode_data resp.

Definition call_tool (name : string) (args : value) (st : state)
  : result value * state :=
  let n := S (_call_id st) in
  let cid := correlation_id n in
  let msg := json_dumps (tool_call_msg cid name args) in
  let (line, rest) := readline (proto_in st) in
  let st' := mk_state n (_final_result st)
               (proto_out st ++ msg ++ newline) rest in
  if String.eqb line "" then
    (Raise (RuntimeError
       ("Tool '" ++ name ++ "': no response from agent (pipe closed)")), st')
  else
    (json_loads line ≫= decode_response name, st').

(** The [for name, args in calls] loop: one fresh id per call, in order. *)
Fixpoint build_batch (calls : list (string * value)) (id : nat)
  : list value * nat :=
  match calls with
  | [] => ([], id)
  | (name, args) :: rest =>
      let id' := S id in
      let entry := VDict [("id", VStr (correlation_id id'));
                          ("name", VStr name);
                          ("args", py_or args (VDict []))] in
      let (batch, last) := build_batch rest id' in
      (entry :: batch, last)
  end.

(** The entry [build_batch] makes for a call that draws the id [id]. *)
Definition batch_entry (id : nat) (name : string) (args : value) : value :=
  VDict [("id", VStr (correlation_id id)); ("name", VStr name);
         ("args", py_or args (VDict []))].

(** One iteration of [for r in resp.get("results", [])]. *)
Definition decode_slot (r : value) : result slot :=
  err ← py_get r "error" VNone;
  if truthy err then
    msg ← py_getitem r "error";
    Return (ErrorValue (RuntimeError ("Tool failed: " ++ format_value msg)))
  else
    v ← decode_data r; Return (Payload v).

(** The whole loop: an exception escaping an iteration ends the call. *)
Fixpoint decode_slots (rs : list value) : result (list slot) :=
  match rs with
  | [] => Return []
  | r :: rs' =>
      s ← decode_slot r;
      ss ← decode_slots rs';
      Return (s :: ss)
  end.

Definition call_tools_parallel (calls : list (string * value)) (st : state)
  : result (list slot) * state :=
  let (batch, n) := build_batch calls (_call_id st) in
  let msg := json_dumps (VDict [("type", VStr "tool_calls_parallel");
                                ("calls", VList batch)]) in
  let (line, rest) := readline (proto_in st) in
  let st' := mk_state n (_final_result st)
               (proto_out st ++ msg ++ newline) rest in
  if String.eqb line "" then
    (Raise (RuntimeError
       "Parallel tool calls: no response from agent (pipe closed)"), st')
  else
    (resp ← json_loads line;
     results ← py_get resp "results" (VList []);
     rs ← py_iter results;
     decode_slots rs, st').

Definition set_result (data : value) (st : state) : state :=
  mk_state (_call_id st) data (proto_out st) (proto_in st).

(** *** Scripts

    What user code does with the client, as the sequence of its calls.  User
    code may catch an exception and go on, so the calls after a failed one
    still run. *)
Inductive op : Type :=
| CallTool (name : string) (args : value)
| CallToolsParallel (calls : list (string * value))
| SetResult (data : value).

Definition run_op (o : op) (st : state) : state :=
  match o with
  | CallTool name args => snd (call_tool name args st)
  | CallToolsParallel calls => snd (call_tools_parallel calls st)
  | SetResult data => set_result data st
  end.

Definition run_script (script : list op) (st : state) : state :=
  fold_left (fun st o => run_op o st) script st.

(** User code that makes the given single calls one after the other and
    keeps each outcome, going on after a call that raised. *)
Fixpoint call_each (calls : list (string * value)) (st : state)
  : list (result value) * state :=
  match calls with
  | [] => ([], st)
  | (name, args) :: rest =>
      let (r, st1) := call_tool name args st in
      let (rs, st2) := call_each rest st1 in
      (r :: rs, st2)
  end.

(** What a single call makes of one inbound line. *)
Definition answer (name line : string) : result value :=
  json_loads line ≫= decode_response name.

(** The request documents a script sends, in order. *)
Definition op_requests (o : op) (id : nat) : list value * nat :=
  match o with
  | CallTool name args =>
      ([tool_call_msg (correlation_id (S id)) name args], S id)
  | CallToolsParallel calls =>
      let (batch, last) := build_batch calls id in
      ([VDict [("type", VStr "tool_calls_parallel");
               ("calls", VList batch)]], last)
  | SetResult _ => ([], id)
  end.

Fixpoint script_requests (script : list op) (id : nat) : list value :=
  match script with
  | [] => []
  | o :: rest =>
      let (msgs, id') := op_requests o id in
      msgs ++ script_requests rest id'
  end.

(** The bytes on fd 1 for a list of request documents: one line each. *)
Fixpoint wire (msgs : list value) : string :=
  match msgs with
  | [] => ""
  | m :: rest => json_dumps m ++ newline ++ wire rest
  end.

(** The [id] of a call entry or of a single-call request, if it has one. *)
Definition id_of (doc : value) : list string :=
  match doc with
  | VDict d =>
      match assoc "id" d with
      | Some (VStr cid) => [cid]
      | _ => []
      end
  | _ => []
  end.

(** Every correlation id a request document carries: its own, and those of
    the entries under [calls]. *)
Definition request_ids (doc : value) : list string :=
  id_of doc ++
  match doc with
  | VDict d =>
      match assoc "calls" d with
      | Some (VList batch) => concat (map id_of batch)
      | _ => []
      end
  | _ => []
  end.

End Client.

End Pipe.

(** ** HTTP variant (src/cmd/sandbox/prelude.py) *)

Module Http.

(** [_CALLBACK_URL] and [_EXECUTION_ID], read from the environment once. *)
Record config : Type := mk_config {
  _CALLBACK_URL : string;
  _EXECUTION_ID : string
}.

(** The result sink: [_final_result] and [_output_files]. *)
Record sink : Type := mk_sink {
  _final_result : value;
  _output_files : list value
}.

(** The sink when user code starts. *)
Definition initial_sink : sink := mk_sink VNone [].

(** How [urllib.request.urlopen(req, timeout=120)] followed by [resp.read()]
    ends. *)
Inductive http_outcome : Type :=
| Body (body : string)
| HTTPError (code : nat) (body : string)
| OtherException (text : string).

(** What one unit of [call_tools_parallel] left in its slot. *)
Inductive completion : Type :=
| Completed (i : nat) (r : result value).

Definition unit_of (c : completion) : nat :=
  match c with Completed i _ => i end.

Section Client.

Context `{PyRuntime}.

(** The remote side: it answers the POST of [payload] to [url] and may
    change its own state [W] while doing so. *)
Context {W : Type}.
Variable urlopen : W -> string -> string -> http_outcome * W.

Variable cfg : config.

(** The request body. *)
Definition request_doc (name : string) (args : value) : value :=
  VDict [("execution_id", VStr (_EXECUTION_ID cfg));
         ("name", VStr name);
         ("args", py_or args (VDict []))].

(** Lines 57-61: [data = result.get("data", "")] and the conditional
    re-parse under [except (JSONDecodeError, TypeError)]. *)
Definition decode_data (result_doc : value) : result value :=
  data ← py_get result_doc "data" (VStr "");
  match (if is_str data && truthy data then loads_value data
         else Return data) with
  | Return v => Return v
  | Raise JSONDecodeError | Raise TypeError => Return data
  | Raise e => Raise e
  end.

(** Lines 53-61, on the body of a 2xx response. *)
Definition decode_body (name body : string) : result value :=
  result_doc ← json_loads body;
  err ← py_get result_doc "error" VNone;
  if truthy err then
    msg ← py_getitem result_doc "error";
    Raise (RuntimeError
      ("Tool '" ++ name ++ "' failed: " ++ format_value msg))
  else decode_data result_doc.

Definition call_tool (name : string) (args : value) (w : W)
  : result value * W :=
  if String.eqb (_CALLBACK_URL cfg) "" then
    (Raise (RuntimeError "call_tool: no callback URL configured"), w)
  else
    let payload := json_dumps (request_doc name args) in
    let (outcome, w') := urlopen w (_CALLBACK_URL cfg) payload in
    (match outcome with
     | HTTPError code body =>
         Raise (RuntimeError
           ("Tool '" ++ name ++ "': HTTP " ++ str_of_nat code ++ ": " ++ body))
     | OtherException text =>
         Raise (RuntimeError
           ("Tool '" ++ name ++ "': request failed: " ++ text))
     | Body body => decode_body name body
     end, w').

(** The shared arrays of [call_tools_parallel], the remote side, and the
    units that have finished so far, in the order they finished. *)
Record par_state : Type := mk_par {
  results : list value;
  errors : list (option exn);
  remote : W;
  finished : list completion
}.

(** [_worker(i, name, args)], run to its end. *)
Definition _worker (i : nat) (name : string) (args : value) (ps : par_state)
  : par_state :=
  let (r, w') := call_tool name args (remote ps) in
  match r with
  | Return v =>
      mk_par (<[i := v]> (results ps)) (errors ps) w'
             (finished ps ++ [Completed i r])
  | Raise exc =>
      mk_par (results ps) (<[i := Some exc]> (errors ps)) w'
             (finished ps ++ [Completed i r])
  end.

(** The thread created for position [i] of [calls]; its target gets
    [args or {}]. *)
Definition run_thread (calls : list (string * value)) (ps : par_state)
  (i : nat) : par_state :=
  match calls !! i with
  | Some (name, args) => _worker i name (py_or args (VDict [])) ps
  | None => ps
  end.

(** [for err in errors: if err is not None: raise err]. *)
Fixpoint first_error (errs : list (option exn)) : option exn :=
  match errs with
  | [] => None
  | Some e :: _ => Some e
  | None :: rest => first_error rest
  end.

(** [call_tools_parallel(calls)] when the scheduler lets the threads finish
    in the order [schedule].  Every thread is started and joined, so
    [schedule] lists each position of [calls] once; the arrays are inspected
    after the last join.  A thread shares nothing with the others but the
    remote side it talks to and its own two slots, so it is run as one step,
    at the moment it finishes. *)
Definition call_tools_parallel (schedule : list nat)
  (calls : list (string * value)) (w : W)
  : result (list value) * W * list completion :=
  let n := length calls in
  let ps0 := mk_par (replicate n VNone) (replicate n None) w [] in
  let ps := fold_left (run_thread calls) schedule ps0 in
  (match first_error (errors ps) with
   | Some err => Raise err
   | None => Return (results ps)
   end, remote ps, finished ps).

(** What holds of the shared arrays between two thread completions: both
    keep their size; a finished unit's outcome sits in its own slot (its
    value in [results] with its [errors] slot still None, or its exception
    in [errors]); every recorded outcome is what [call_tool] gave for the
    call at that position; and the [errors] slot of a unit that has not
    finished is None. *)
Record threads_inv (calls : list (string * value)) (ps : par_state)
  : Prop := mk_threads_inv {
  inv_results_length : length (results ps) = length calls;
  inv_errors_length : length (errors ps) = length calls;
  inv_stored : forall i r,
    Completed i r ∈ finished ps ->
    match r with
    | Return v => results ps !! i = Some v /\ errors ps !! i = Some None
    | Raise e => errors ps !! i = Some (Some e)
    end;
  inv_genuine : forall i r,
    Completed i r ∈ finished ps ->
    exists name args w0,
      calls !! i = Some (name, args)
      /\ fst (call_tool name (py_or args (VDict [])) w0) = r;
  inv_pending : forall i,
    i < length calls ->
    i ∉ map unit_of (finished ps) ->
    errors ps !! i = Some None
}.

(** [set_result(data, files=None)]; [list(files)] raises for a value that
    cannot be iterated, after [_final_result] was assigned. *)
Definition set_result (data files : value) (s : sink) : result unit * sink :=
  let s1 := mk_sink data (_output_files s) in
  match files with
  | VNone => (Return tt, s1)
  | _ =>
      match py_iter files with
      | Return fs => (Return tt, mk_sink data fs)
      | Raise e => (Raise e, s1)
      end
  end.

End Client.

(** What [subprocess.run(argv, capture_output=True, text=True)] returns, as
    far as [install_package] reads it. *)
Record completed_process : Type := mk_completed {
  returncode : Z;
  stderr : string
}.

Section Install.

(** The machine the script runs on: running a command gives its exit status
    and captured stderr and may change the machine. *)
Context {M : Type}.
Variable run : M -> list string -> completed_process * M.

(** [sys.executable]. *)
Variable executable : string.

(** [install_package(name)], with the lines printed to [sys.stderr] so
    far. *)
Definition install_package (name : string) (m : M) (log : list string)
  : result unit * M * list string :=
  let log1 := List.app log ["[sandbox] pip install " ++ name ++ "..."] in
  let (result, m') :=
    run m [executable; "-m"; "pip"; "install"; "-q"; name] in
  if negb (returncode result =? 0)%Z then
    (Raise (RuntimeError
       ("pip install " ++ name ++ " failed: " ++ stderr result)), m', log1)
  else
    (Return tt, m', List.app log1 ["[sandbox] " ++ name ++ " installed"]).

End Install.

End Http.

(** ** A small Python runtime for closed examples

    A JSON reader and writer for the documents the protocol exchanges:
    [null], booleans, integers, strings with the single-character escapes,
    arrays and objects.  Floats are outside it (not read, written as
    [NaN]).  An integer literal of more than 4300 digits is refused with
    ValueError, as the interpreter's default limit on integer strings
    does. *)

Module Mini.

Definition dquote : ascii := "034".
Definition backslash : ascii := "092".

Definition is_ws (c : ascii) : bool :=
  Ascii.eqb c " " || Ascii.eqb c "010" || Ascii.eqb c "013"
  || Ascii.eqb c "009".

Fixpoint skip_ws (s : string) : string :=
  match s with
  | String c s' => if is_ws c then skip_ws s' else s
  | EmptyString => s
  end.

Definition digit_of (c : ascii) : option Z :=
  let n := nat_of_ascii c in
  if (48 <=? n)%nat && (n <=? 57)%nat then Some (Z.of_nat (n - 48)) else None.

(** The digits at the front of [s], accumulated onto [acc]; [seen] counts
    them. *)
Fixpoint read_digits (s : string) (acc : Z) (seen : nat)
  : option (Z * nat * string) :=
  match s with
  | String c s' =>
      match digit_of c with
      | Some d => read_digits s' (10 * acc + d)%Z (S seen)
      | None => match seen with O => None | _ => Some (acc, seen, s) end
      end
  | EmptyString => match seen with O => None | _ => Some (acc, seen, s) end
  end.

(** [sys.get_int_max_str_digits()], by default. *)
Definition max_str_digits : nat := 4300.

(** How reading a value from the front of a text ends. *)
Inductive parsed : Type :=
| POk (v : value) (rest : string)
| PSyntax
| PTooLong.

(** An integer literal read, with its sign. *)
Definition number (sign : Z) (s : string) : parsed :=
  match read_digits s 0 0 with
  | Some (z, n, rest) =>
      if (max_str_digits <? n)%nat then PTooLong
      else POk (VInt (sign * z)) rest
  | None => PSyntax
  end.

Definition unescape (c : ascii) : option ascii :=
  if Ascii.eqb c dquote then Some dquote
  else if Ascii.eqb c backslash then Some backslash
  else if Ascii.eqb c "/" then Some "/"%char
  else if Ascii.eqb c "n" then Some "010"%char
  else if Ascii.eqb c "r" then Some "013"%char
  else if Ascii.eqb c "t" then Some "009"%char
  else None.

(** The rest of a string literal, after its opening quote. *)
Fixpoint read_string (s : string) : option (string * string) :=
  match s with
  | EmptyString => None
  | String c s' =>
      if Ascii.eqb c dquote then Some (EmptyString, s')
      else if Ascii.eqb c backslash then
        match s' with
        | String e s'' =>
            match unescape e, read_string s'' with
            | Some a, Some (body, rest) => Some (String a body, rest)
            | _, _ => None
            end
        | EmptyString => None
        end
      else
        match read_string s' with
        | Some (body, rest) => Some (String c body, rest)
        | None => None
        end
  end.

(** [d[k] = v] on an insertion-ordered dict. *)
Fixpoint dict_set (k : string) (v : value) (d : list (string * value))
  : list (string * value) :=
  match d with
  | [] => [(k, v)]
  | (k', v') :: d' =>
      if String.eqb k k' then (k, v) :: d' else (k', v') :: dict_set k v d'
  end.

Inductive mode : Type :=
| MValue
| MElems (acc : list value)
| MMembers (acc : list (string * value)).

Definition expect (lit : string) (v : value) (s : string) : parsed :=
  if String.prefix lit s
  then POk v (String.substring (String.length lit)
                (String.length s - String.length lit) s)
  else PSyntax.

Fixpoint parse (fuel : nat) (m : mode) (s : string) : parsed :=
  match fuel with
  | O => PSyntax
  | S fuel' =>
      let s := skip_ws s in
      match m with
      | MValue =>
          match s with
          | String "[" r =>
              match skip_ws r with
              | String "]" r' => POk (VList []) r'
              | r' => parse fuel' (MElems []) r'
              end
          | String "{" r =>
              match skip_ws r with
              | String "}" r' => POk (VDict []) r'
              | r' => parse fuel' (MMembers []) r'
              end
          | String "-" r => number (-1) r
          | String "n" _ => expect "null" VNone s
          | String "t" _ => expect "true" (VBool true) s
          | String "f" _ => expect "false" (VBool false) s
          | String c r =>
              if Ascii.eqb c dquote then
                match read_string r with
                | Some (str, r') => POk (VStr str) r'
                | None => PSyntax
                end
              else number 1 s
          | EmptyString => PSyntax
          end
      | MElems acc =>
          match parse fuel' MValue s with
          | POk v r =>
              match skip_ws r with
              | String "," r' => parse fuel' (MElems (v :: acc)) r'
              | String "]" r' => POk (VList (rev (v :: acc))) r'
              | _ => PSyntax
              end
          | failure => failure
          end
      | MMembers acc =>
          match s with
          | String c r =>
              if Ascii.eqb c dquote then
                match read_string r with
                | Some (k, r1) =>
                    match skip_ws r1 with
                    | String ":" r2 =>
                        match parse fuel' MValue r2 with
                        | POk v r3 =>
                            match skip_ws r3 with
                            | String "," r4 =>
                                parse fuel' (MMembers (dict_set k v acc)) r4
                            | String "}" r4 =>
                                POk (VDict (dict_set k v acc)) r4
                            | _ => PSyntax
                            end
                        | failure => failure
                        end
                    | _ => PSyntax
                    end
                | None => PSyntax
                end
              else PSyntax
          | EmptyString => PSyntax
          end
      end
  end.

Definition loads (s : string) : result value :=
  match parse (2 * String.length s + 2) MValue s with
  | POk v rest =>
      match skip_ws rest with
      | EmptyString => Return v
      | _ => Raise JSONDecodeError
      end
  | PSyntax => Raise JSONDecodeError
  | PTooLong => Raise ValueError
  end.

Definition str_of_Z (z : Z) : string :=
  match z with
  | Z0 => "0"
  | Zpos p => str_of_nat (Pos.to_nat p)
  | Zneg p => "-" ++ str_of_nat (Pos.to_nat p)
  end.

(** The body of a string literal: quote, backslash and newline escaped. *)
Fixpoint escape (s : string) : string :=
  match s with
  | EmptyString => EmptyString
  | String c s' =>
      if Ascii.eqb c dquote then String backslash (String dquote (escape s'))
      else if Ascii.eqb c backslash
      then String backslash (String backslash (escape s'))
      else if Ascii.eqb c "010" then String backslash (String "n" (escape s'))
      else String c (escape s')
  end.

Definition quoted (s : string) : string :=
  String dquote (escape s ++ String dquote EmptyString).

(** [json.dumps] with its default separators. *)
Fixpoint dumps (v : value) : string :=
  match v with
  | VNone => "null"
  | VBool true => "true"
  | VBool false => "false"
  | VInt z => str_of_Z z
  | VFloat _ => "NaN"
  | VStr s => quoted s
  | VList l =>
      "[" ++ (fix items (l : list value) : string :=
                match l with
                | [] => ""
                | x :: r =>
                    dumps x ++ match r with
                               | [] => ""
                               | _ => ", " ++ items r
                               end
                end) l ++ "]"
  | VDict d =>
      "{" ++ (fix members (d : list (string * value)) : string :=
                match d with
                | [] => ""
                | (k, x) :: r =>
                    quoted k ++ ": " ++ dumps x
                    ++ match r with
                       | [] => ""
                       | _ => ", " ++ members r
                       end
                end) d ++ "}"
  end.

(** [repr] of a value that is not a [str], as an f-string shows it. *)
Fixpoint repr (v : value) : string :=
  match v with
  | VNone => "None"
  | VBool true => "True"
  | VBool false => "False"
  | VInt z => str_of_Z z
  | VFloat _ => "nan"
  | VStr s => "'" ++ s ++ "'"
  | VList l =>
      "[" ++ (fix items (l : list value) : string :=
                match l with
                | [] => ""
                | x :: r =>
                    repr x ++ match r with
                              | [] => ""
                              | _ => ", " ++ items r
                              end
                end) l ++ "]"
  | VDict d =>
      "{" ++ (fix members (d : list (string * value)) : string :=
                match d with
                | [] => ""
                | (k, x) :: r =>
                    "'" ++ k ++ "': " ++ repr x
                    ++ match r with
                       | [] => ""
                       | _ => ", " ++ members r
                       end
                end) d ++ "}"
  end.

#[global, refine] Instance runtime : PyRuntime := {
  json_loads := loads;
  json_dumps := dumps;
  py_repr := repr;
  json_loads_empty := eq_refl;
  json_loads_raises := _
}.
Proof.
  intros s e. unfold loads.
  destruct (parse (2 * String.length s + 2) MValue s) as [v rest| |];
    [destruct (skip_ws rest)|..]; intros [= <-]; auto.
Defined.

(** A text of [n] copies of the character [c]. *)
Fixpoint repeat_char (c : ascii) (n : nat) : string :=
  match n with
  | O => EmptyString
  | S n' => String c (repeat_char c n')
  end.

(** An integer literal one digit longer than the limit. *)
Definition long_number : string := repeat_char "1" 4301.

(** *** Remote sides for closed examples *)

Definition demo_config : Http.config :=
  Http.mk_config "http://agent/callback" "exec-1".

(** Answers each request with the number of requests it had seen before, as
    a textual payload. *)
Definition counting_remote (w : nat) (url payload : string)
  : Http.http_outcome * nat :=
  (Http.Body (dumps (VDict [("data", VStr (str_of_nat w))])), S w).

(** Refuses every request, with a status that tells the requests apart. *)
Definition failing_remote (w : nat) (url payload : string)
  : Http.http_outcome * nat :=
  (Http.HTTPError (500 + w) "down", S w).

(** Refuses the first request it sees and answers the later ones. *)
Definition flaky_remote (w : nat) (url payload : string)
  : Http.http_outcome * nat :=
  (if (w =? 0)%nat then Http.HTTPError 503 "busy"
   else Http.Body (dumps (VDict [("data", VStr (str_of_nat w))])), S w).

(** Answers each request with the request itself as a textual payload; the
    answer does not depend on what it has seen before. *)
Definition echo_remote (w : nat) (url payload : string)
  : Http.http_outcome * nat :=
  (Http.Body (dumps (VDict [("data", VStr payload)])), S w).

(** A machine on which pip knows one package, requests: installing it
    succeeds, anything else fails with a message on stderr.  The machine
    counts the commands it has run. *)
Definition demo_machine (m : nat) (argv : list string)
  : Http.completed_process * nat :=
  (match last argv with
   | Some "requests" => Http.mk_completed 0 ""
   | _ => Http.mk_completed 1 "ERROR: No matching distribution found"
   end, S m).

(** Answers every request with a textual payload that is one integer
    literal of 4301 digits, as a tool that reads a file of digits does. *)
Definition digits_remote (w : nat) (url payload : string)
  : Http.http_outcome * nat :=
  (Http.Body (dumps (VDict [("data", VStr long_number)])), S w).

(** An agent that answers each entry of a batch with the entry's tool name
    as its payload. *)
Definition name_agent (entry : value) : value :=
  match entry with
  | VDict e => VDict [("data", default VNone (assoc "name" e))]
  | _ => VDict []
  end.

(** The line the agent writes for a response document. *)
Definition line_of (doc : value) : string := dumps doc ++ newline.

End Mini.

(** * Properties *)

(** ** Strings *)

Lemma prefix_length (p s : string) :
  String.prefix p s = true -> String.length p <= String.length s.
Proof.
  revert s. induction p as [|c p IH]; intros s Hp.
  - simpl. lia.
  - destruct s as [|c' s]; simpl in Hp; [discriminate|].
    destruct (ascii_dec c c'); [|discriminate].
    simpl. apply IH in Hp. lia.
Qed.

Lemma string_length_app (a b : string) :
  String.length (a ++ b) = String.length a + String.length b.
Proof. induction a as [|c a IH]; simpl; [reflexivity | now rewrite IH]. Qed.

(** A path never starts with itself followed by a separator. *)
Lemma not_startswith_self_sep (ws : string) :
  startswith ws (ws ++ sep) = false.
Proof.
  unfold startswith.
  destruct (String.prefix (ws ++ sep) ws) eqn:Hp; [|reflexivity].
  apply prefix_length in Hp. rewrite string_length_app in Hp.
  simpl in Hp. lia.
Qed.

Lemma startswith_sep_neq (ws r : string) :
  startswith r (ws ++ sep) = true -> String.eqb r ws = false.
Proof.
  intros Hp. apply String.eqb_neq. intros ->.
  rewrite not_startswith_self_sep in Hp. discriminate.
Qed.

Lemma startswith_sep_cons (c : ascii) (p : string) :
  startswith (String c p) sep = Ascii.eqb c "/".
Proof.
  unfold startswith, sep.
  change (String.prefix "/" (String c p))
    with (if ascii_dec "/" c then String.prefix "" p else false).
  destruct (ascii_dec "/" c) as [<-|Hne].
  - destruct p; reflexivity.
  - symmetry. apply Ascii.eqb_neq. congruence.
Qed.

(** ** Confinement guards *)

(** C2: the open guard resolves the path joined to the workspace root and
    forwards to the built-in open exactly when the resolved path is inside
    the workspace; otherwise it raises before the built-in is reached.  A
    relative path is joined to the root, an absolute one stands for itself.
    With root /ws the three paths of the spec are forwarded and the two
    outside ones are refused. *)
Theorem safe_open_confined :
  (forall realpath ws p args,
     Guard._safe_open realpath ws (Guard.PathStr p) args =
     let resolved := realpath (path_join ws p) in
     if inside ws resolved
     then Return (Guard.BuiltinOpen resolved args)
     else Raise (PermissionError
            ("access denied: " ++ p ++ " is outside workspace (" ++ ws ++ ")")))
  /\ (forall p, path_join "/ws" (String "/" p) = String "/" p)
  /\ (forall c p, c <> "/"%char ->
        path_join "/ws" (String c p) = "/ws/" ++ String c p)
  /\ (forall cwd args,
        let open := Guard._safe_open (Guard.realpath_nolinks cwd) "/ws" in
        open (Guard.PathStr "/ws/a.txt") args
          = Return (Guard.BuiltinOpen "/ws/a.txt" args)
        /\ open (Guard.PathStr "a.txt") args
          = Return (Guard.BuiltinOpen "/ws/a.txt" args)
        /\ open (Guard.PathStr "/ws/../ws/a.txt") args
          = Return (Guard.BuiltinOpen "/ws/a.txt" args)
        /\ open (Guard.PathStr "/etc/passwd") args
          = Raise (PermissionError
              "access denied: /etc/passwd is outside workspace (/ws)")
        /\ open (Guard.PathStr "../outside.txt") args
          = Raise (PermissionError
              "access denied: ../outside.txt is outside workspace (/ws)")).
Proof.
  split; [|split; [|split]].
  - intros realpath ws p args. unfold Guard._safe_open, inside. simpl.
    destruct (String.eqb (realpath (path_join ws p)) ws) eqn:He;
      destruct (startswith (realpath (path_join ws p)) (ws ++ sep)) eqn:Hs;
      reflexivity.
  - intros p. unfold path_join. now rewrite startswith_sep_cons.
  - intros c p Hc. unfold path_join. rewrite startswith_sep_cons.
    apply Ascii.eqb_neq in Hc. now rewrite Hc.
  - intros cwd args. repeat split; reflexivity.
Qed.

(** C4: a whole-tree removal whose resolved target is the workspace root is
    refused with a PermissionError and never reaches the original rmtree,
    while a target strictly inside the workspace is handed to it; with root
    /ws, removing /ws is refused and removing /ws/sub is forwarded. *)
Theorem safe_rmtree_root_denied :
  (forall realpath ws p args,
     realpath p = ws ->
     exists msg,
       Guard._safe_rmtree realpath ws p args = Raise (PermissionError msg))
  /\ (forall realpath ws p args,
        startswith (realpath p) (ws ++ sep) = true ->
        Guard._safe_rmtree realpath ws p args
          = Return (Guard.OriginalRmtree (realpath p) args))
  /\ (forall cwd args,
        Guard._safe_rmtree (Guard.realpath_nolinks cwd) "/ws" "/ws" args
          = Raise (PermissionError "cannot delete outside workspace: /ws")
        /\ Guard._safe_rmtree (Guard.realpath_nolinks cwd) "/ws" "/ws/sub" args
          = Return (Guard.OriginalRmtree "/ws/sub" args)).
Proof.
  split; [|split].
  - intros realpath ws p args Hroot. unfold Guard._safe_rmtree. simpl.
    rewrite Hroot, not_startswith_self_sep. simpl. eauto.
  - intros realpath ws p args Hin. unfold Guard._safe_rmtree. simpl.
    rewrite Hin, (startswith_sep_neq _ _ Hin). reflexivity.
  - intros cwd args. split; reflexivity.
Qed.

(** The root of the workspace resolves to itself and is refused; a
    directory below it is forwarded. *)
Lemma safe_rmtree_root_denied_witness :
  (exists msg,
     Guard._safe_rmtree (Guard.realpath_nolinks "/ws") "/ws" "." no_args
       = Raise (PermissionError msg))
  /\ Guard._safe_rmtree (Guard.realpath_nolinks "/ws") "/ws" "sub" no_args
       = Return (Guard.OriginalRmtree "/ws/sub" no_args).
Proof.
  split.
  - apply (proj1 safe_rmtree_root_denied). reflexivity.
  - exact (proj1 (proj2 safe_rmtree_root_denied)
             (Guard.realpath_nolinks "/ws") "/ws" "sub" no_args eq_refl).
Defined.

(** The guards of [os.remove] and [os.rmdir] resolve their argument as the
    guard of [open] does: joined to the workspace root, then resolved. *)
Lemma safe_remove_rmdir_resolve_like_open realpath ws p args :
  let resolved := realpath (path_join ws p) in
  Guard._safe_remove realpath ws p args
    = (if startswith resolved (ws ++ sep)
       then Return (Guard.OriginalRemove resolved args)
       else Raise (PermissionError ("cannot delete outside workspace: " ++ p)))
  /\ Guard._safe_rmdir realpath ws p args
    = (if startswith resolved (ws ++ sep)
       then Return (Guard.OriginalRmdir resolved args)
       else Raise (PermissionError ("cannot delete outside workspace: " ++ p))).
Proof.
  unfold Guard._safe_remove, Guard._safe_rmdir. simpl.
  destruct (startswith (realpath (path_join ws p)) (ws ++ sep)); split;
    reflexivity.
Qed.

(** C5, where the code departs from it: with workspace /ws and current
    directory /tmp, the relative path sub is resolved by the rmtree guard
    against the current directory (to /tmp/sub) and refused, while the
    remove and rmdir guards resolve the same argument to /ws/sub and forward
    it.  The rmtree guard never joins its argument to the workspace root:
    it resolves the argument as given. *)
Theorem safe_rmtree_resolves_against_cwd :
  (forall realpath ws p args,
     Guard._safe_rmtree realpath ws p args
       = (let resolved := realpath p in
          if startswith resolved (ws ++ sep)
          then Return (Guard.OriginalRmtree resolved args)
          else Raise (PermissionError
                 ("cannot delete outside workspace: " ++ p))))
  /\ Guard._safe_rmtree (Guard.realpath_nolinks "/tmp") "/ws" "sub" no_args
       = Raise (PermissionError "cannot delete outside workspace: sub")
  /\ Guard._safe_remove (Guard.realpath_nolinks "/tmp") "/ws" "sub" no_args
       = Return (Guard.OriginalRemove "/ws/sub" no_args)
  /\ Guard._safe_rmdir (Guard.realpath_nolinks "/tmp") "/ws" "sub" no_args
       = Return (Guard.OriginalRmdir "/ws/sub" no_args)
  /\ Guard._safe_rmtree (Guard.realpath_nolinks "/ws/a") "/ws" "b" no_args
       = Return (Guard.OriginalRmtree "/ws/a/b" no_args).
Proof.
  split; [|repeat split; reflexivity].
  intros realpath ws p args. unfold Guard._safe_rmtree. simpl.
  destruct (startswith (realpath p) (ws ++ sep)) eqn:Hin; [|reflexivity].
  simpl. now rewrite (startswith_sep_neq _ _ Hin).
Qed.

(** C3 as stated fails: the prelude does not rebind [os.posix_spawn], so
    with the prelude loaded the call
    [os.posix_spawn("/bin/sh", ["sh", "-c", "id"], {})] enters the
    interpreter's own function instead of raising PermissionError. *)
Lemma posix_spawn_not_denied :
  let args := mk_pyargs
    [VStr "/bin/sh"; VList [VStr "sh"; VStr "-c"; VStr "id"]; VDict []] [] in
  Guard.call_attr (Guard.patch_os Guard.python_os) "posix_spawn" args
    = Return (Guard.RanOriginal "os.posix_spawn" args)
  /\ forall msg,
       Guard.call_attr (Guard.patch_os Guard.python_os) "posix_spawn" args
         <> Raise (PermissionError msg).
Proof.
  split; [vm_compute; reflexivity | intros msg; vm_compute; discriminate].
Qed.

(** C3, amended: every call of [os.system] and of [run], [Popen], [call],
    [check_output] and [check_call] of the module installed as [subprocess]
    raises PermissionError whatever the arguments and whatever [os] held
    before, so no original function is entered; on [os] only [system],
    [remove] and [rmdir] are rebound, so its other process entry points are
    not intercepted. *)
Theorem blocked_entry_points_always_raise :
  (forall os args,
     Guard.call_attr (Guard.patch_os os) "system" args
       = Raise (PermissionError Guard.os_system_msg))
  /\ (forall attr args,
        attr ∈ ["run"; "Popen"; "call"; "check_output"; "check_call"] ->
        Guard.call_attr Guard.subprocess_stub attr args
          = Raise (PermissionError Guard.subprocess_msg))
  /\ (forall os attr,
        attr ∉ ["system"; "remove"; "rmdir"] ->
        Guard.patch_os os !! attr = os !! attr).
Proof.
  split; [|split].
  - intros os args. unfold Guard.call_attr, Guard.patch_os.
    now rewrite lookup_insert_eq.
  - intros attr args Hin. unfold Guard.call_attr, Guard.subprocess_stub.
    repeat (apply elem_of_cons in Hin as [->|Hin]; [reflexivity|]).
    now apply elem_of_nil in Hin.
  - intros os attr Hout. unfold Guard.patch_os.
    repeat (rewrite lookup_insert_ne;
            [|intros <-; apply Hout; repeat constructor]).
    reflexivity.
Qed.

(** One of the five names at one argument list, and an attribute of [os]
    that is left alone. *)
Lemma blocked_entry_points_always_raise_witness :
  Guard.call_attr Guard.subprocess_stub "Popen"
    (mk_pyargs [VList [VStr "ls"]] [("shell", VBool true)])
    = Raise (PermissionError Guard.subprocess_msg)
  /\ Guard.patch_os Guard.python_os !! "fork" = Guard.python_os !! "fork".
Proof.
  destruct blocked_entry_points_always_raise as (_ & Hstub & Hos).
  split.
  - apply Hstub. repeat constructor.
  - apply Hos. intros Hin.
    repeat (apply elem_of_cons in Hin as [Hin|Hin]; [discriminate|]).
    now apply elem_of_nil in Hin.
Defined.

(** ** Result sink *)

(** C9: in the HTTP variant [set_result(y)] without files (or with None)
    stores [y] and leaves the output-files list as it was; a files argument
    that is not None replaces the list by its elements; and as long as no
    call passes files the list is the empty list it starts as. *)
Theorem set_result_keeps_files :
  (forall y s,
     Http.set_result y VNone s
       = (Return tt, Http.mk_sink y (Http._output_files s)))
  /\ (forall y fs s,
        Http.set_result y (VList fs) s = (Return tt, Http.mk_sink y fs))
  /\ (forall y files s,
        Http._output_files (snd (Http.set_result y files s))
          <> Http._output_files s -> files <> VNone)
  /\ Http._output_files Http.initial_sink = []
  /\ (forall ys,
        Http._output_files
          (fold_left (fun s y => snd (Http.set_result y VNone s)) ys
             Http.initial_sink) = []).
Proof.
  split; [|split; [|split; [|split]]].
  - reflexivity.
  - reflexivity.
  - intros y files s Hchanged ->. now apply Hchanged.
  - reflexivity.
  - intros ys.
    assert (Hgen : forall s,
      Http._output_files
        (fold_left (fun s y => snd (Http.set_result y VNone s)) ys s)
      = Http._output_files s).
    { induction ys as [|y ys IH]; intros s; simpl; [reflexivity|].
      now rewrite IH. }
    apply Hgen.
Qed.

(** ** Payload decoding *)

Section Decoding.

Context `{PyRuntime}.

(** The [try] and [except] of the pipe variant, in closed form. *)
Lemma pipe_decode_data_reread d :
  Pipe.decode_data (VDict d) = reread (default (VStr "") (assoc "data" d)).
Proof.
  unfold Pipe.decode_data. simpl.
  destruct (assoc "data" d) as [payload|] eqn:Hdata; simpl.
  - destruct payload as [| | | |s| |]; simpl; try reflexivity.
    destruct (json_loads s) as [v|e] eqn:Hloads; [reflexivity|].
    destruct (json_loads_raises s e Hloads) as [->|[->| ->]]; reflexivity.
  - now rewrite json_loads_empty.
Qed.

(** The [try] and [except] of the HTTP variant, in closed form. *)
Lemma http_decode_data_reread d :
  Http.decode_data (VDict d) = reread (default (VStr "") (assoc "data" d)).
Proof.
  unfold Http.decode_data. simpl.
  destruct (assoc "data" d) as [payload|]; simpl.
  - destruct payload as [| | | |s| |]; simpl; try reflexivity.
    destruct (String.eqb_spec s "") as [->|Hne]; simpl.
    + now rewrite json_loads_empty.
    + destruct (json_loads s) as [v|e] eqn:Hloads; [reflexivity|].
      destruct (json_loads_raises s e Hloads) as [->|[->| ->]]; reflexivity.
  - now rewrite json_loads_empty.
Qed.

(** Where [json.loads] raises nothing but [JSONDecodeError], the code
    follows the codec rule. *)
Lemma reread_reparse payload :
  parse_escapes payload = false -> reread payload = Return (reparse payload).
Proof.
  destruct payload as [| | | |s| |]; simpl; try reflexivity.
  destruct (json_loads s) as [v|e]; [reflexivity|].
  destruct e; try discriminate; reflexivity.
Qed.

Lemma not_tool_error d :
  assoc "type" d <> Some (VStr "tool_error") ->
  Pipe.is_tool_error match assoc "type" d with Some x => x | None => VNone end
  = false.
Proof.
  intros Hty.
  destruct (assoc "type" d) as [[| | | |s| |]|]; simpl; try reflexivity.
  apply String.eqb_neq. intros ->. now apply Hty.
Qed.

End Decoding.

(** C8, where the code departs from it.  On a successful single call whose
    response carries a payload, both variants return the parsed value of a
    string payload that is JSON, the string itself when [json.loads] raises
    JSONDecodeError, and any other payload unchanged: the codec rule, as
    long as [json.loads] raises nothing else.  When it does, the exception
    is not caught and the call raises instead of returning the raw string:
    a payload that is an integer literal of 4301 digits makes [call_tool]
    raise ValueError in both variants, where the rule keeps the text. *)
Theorem call_tool_payload_outcome :
  (forall (R : PyRuntime) name args st line rest d payload,
     readline (Pipe.proto_in st) = (line, rest) ->
     line <> "" ->
     json_loads line = Return (VDict d) ->
     assoc "type" d <> Some (VStr "tool_error") ->
     assoc "data" d = Some payload ->
     fst (Pipe.call_tool name args st) = reread payload)
  /\ (forall (R : PyRuntime) W
        (urlopen : W -> string -> string -> Http.http_outcome * W)
        cfg name args w body w' d payload,
        Http._CALLBACK_URL cfg <> "" ->
        urlopen w (Http._CALLBACK_URL cfg)
          (json_dumps (Http.request_doc cfg name args)) = (Http.Body body, w') ->
        json_loads body = Return (VDict d) ->
        truthy (default VNone (assoc "error" d)) = false ->
        assoc "data" d = Some payload ->
        Http.call_tool urlopen cfg name args w = (reread payload, w'))
  /\ (forall (R : PyRuntime) payload,
        parse_escapes payload = false ->
        reread payload = Return (reparse payload))
  /\ fst (Pipe.call_tool "file_read" VNone
            (Pipe.initial
               (Mini.line_of
                  (VDict [("type", VStr "tool_result");
                          ("data", VStr Mini.long_number)]))))
     = Raise ValueError
  /\ Http.call_tool Mini.digits_remote Mini.demo_config "file_read" VNone 0
     = (Raise ValueError, 1)
  /\ reparse (VStr Mini.long_number) = VStr Mini.long_number.
Proof.
  split; [|split; [|split; [|split; [|split]]]].
  - intros R name args st line rest d payload Hread Hline Hdoc Hty Hdata.
    unfold Pipe.call_tool. rewrite Hread.
    apply String.eqb_neq in Hline. rewrite Hline. simpl. rewrite Hdoc.
    unfold Pipe.decode_response. simpl. rewrite (not_tool_error d Hty).
    now rewrite pipe_decode_data_reread, Hdata.
  - intros R W urlopen cfg name args w body w' d payload
      Hurl Hnet Hdoc Herr Hdata.
    unfold Http.call_tool. apply String.eqb_neq in Hurl. rewrite Hurl, Hnet.
    unfold Http.decode_body. rewrite Hdoc. simpl.
    destruct (assoc "error" d) as [e|]; simpl in Herr |- *;
      [rewrite Herr|]; now rewrite http_decode_data_reread, Hdata.
  - intros R payload. apply reread_reparse.
  - vm_compute. reflexivity.
  - vm_compute. reflexivity.
  - vm_compute. reflexivity.
Qed.

(** A pipe response whose payload is the text of a JSON list, and an HTTP
    response whose payload is the text of a number: both calls return the
    parsed value. *)
Lemma call_tool_payload_outcome_witness :
  fst (Pipe.call_tool "search" VNone
         (Pipe.initial
            (Mini.line_of
               (VDict [("type", VStr "tool_result");
                       ("data", VStr "[1, 2]")]))))
    = reread (VStr "[1, 2]")
  /\ Http.call_tool Mini.counting_remote Mini.demo_config "search" VNone 7
    = (reread (VStr "7"), 8).
Proof.
  split.
  - eapply (proj1 call_tool_payload_outcome Mini.runtime);
      [reflexivity | discriminate | reflexivity | discriminate | reflexivity].
  - eapply (proj1 (proj2 call_tool_payload_outcome) Mini.runtime nat
              Mini.counting_remote);
      [discriminate | reflexivity | reflexivity | reflexivity | reflexivity].
Defined.

(** ** Parallel calls, HTTP variant *)

Lemma first_error_None (errs : list (option exn)) :
  Http.first_error errs = None <-> forall i e, errs !! i <> Some (Some e).
Proof.
  induction errs as [|[e0|] errs IH]; simpl.
  - split; [intros _ i e; now rewrite lookup_nil | reflexivity].
  - split; [discriminate | intros Hall; now destruct (Hall 0 e0)].
  - rewrite IH. split.
    + intros Hall [|i] e; simpl; [discriminate | apply Hall].
    + intros Hall i e. apply (Hall (S i) e).
Qed.

Lemma first_error_Some (errs : list (option exn)) (e : exn) :
  Http.first_error errs = Some e ->
  exists i, errs !! i = Some (Some e)
            /\ forall j, j < i -> errs !! j = Some None.
Proof.
  induction errs as [|[e0|] errs IH]; simpl; intros Hfirst.
  - discriminate.
  - injection Hfirst as ->. exists 0. split; [reflexivity | lia].
  - destruct (IH Hfirst) as (i & Hi & Hbefore).
    exists (S i). split; [exact Hi|].
    intros [|j] Hj; simpl; [reflexivity | apply Hbefore; lia].
Qed.

Section Threads.

Context `{PyRuntime} {W : Type}.
Variable urlopen : W -> string -> string -> Http.http_outcome * W.
Variable cfg : Http.config.
Variable calls : list (string * value).

Local Abbreviation run := (Http.run_thread urlopen cfg calls).
Local Abbreviation inv := (Http.threads_inv urlopen cfg calls).

Lemma threads_inv_initial (w : W) :
  inv (Http.mk_par (replicate (length calls) VNone)
                   (replicate (length calls) None) w []).
Proof.
  constructor; simpl.
  - apply length_replicate.
  - apply length_replicate.
  - intros i r Hin. now apply elem_of_nil in Hin.
  - intros i r Hin. now apply elem_of_nil in Hin.
  - intros i Hi _. now apply lookup_replicate_2.
Qed.

(** One more thread runs to its end. *)
Lemma threads_inv_step (ps : Http.par_state) (i : nat) :
  inv ps ->
  i < length calls ->
  i ∉ map Http.unit_of (Http.finished ps) ->
  inv (run ps i)
  /\ map Http.unit_of (Http.finished (run ps i))
     = (map Http.unit_of (Http.finished ps) ++ [i])%list.
Proof.
  intros [Hrl Hel Hst Hgen Hpend] Hi Hfresh.
  destruct (lookup_lt_is_Some_2 calls i Hi) as [[name args] Hcall].
  unfold run, Http.run_thread. rewrite Hcall. unfold Http._worker.
  destruct (Http.call_tool urlopen cfg name (py_or args (VDict []))
              (Http.remote ps)) as [r w'] eqn:Hcalltool.
  assert (Hother : forall j r', Http.Completed j r' ∈ Http.finished ps -> i <> j).
  { intros j r' Hin ->. apply Hfresh.
    change j with (Http.unit_of (Http.Completed j r')).
    apply list_elem_of_In, in_map, list_elem_of_In, Hin. }
  destruct r as [v|e]; (split; [constructor|]); simpl.
  - now rewrite length_insert.
  - exact Hel.
  - intros j r' Hin. apply elem_of_app in Hin as [Hin|Hin].
    + specialize (Hother _ _ Hin). specialize (Hst _ _ Hin).
      destruct r'; [rewrite list_lookup_insert_ne by exact Hother|]; exact Hst.
    + apply list_elem_of_singleton in Hin. injection Hin as -> ->. split.
      * apply list_lookup_insert_eq. lia.
      * now apply Hpend.
  - intros j r' Hin. apply elem_of_app in Hin as [Hin|Hin]; [now apply Hgen|].
    apply list_elem_of_singleton in Hin. injection Hin as -> ->.
    exists name, args, (Http.remote ps). now rewrite Hcalltool.
  - intros j Hj Hnew. apply Hpend; [exact Hj|].
    intros Hold. apply Hnew. rewrite map_app.
    apply list_elem_of_In, in_or_app. left. now apply list_elem_of_In.
  - now rewrite map_app.
  - exact Hrl.
  - now rewrite length_insert.
  - intros j r' Hin. apply elem_of_app in Hin as [Hin|Hin].
    + specialize (Hother _ _ Hin). specialize (Hst _ _ Hin).
      destruct r'; rewrite list_lookup_insert_ne by exact Hother; exact Hst.
    + apply list_elem_of_singleton in Hin. injection Hin as -> ->.
      apply list_lookup_insert_eq. lia.
  - intros j r' Hin. apply elem_of_app in Hin as [Hin|Hin]; [now apply Hgen|].
    apply list_elem_of_singleton in Hin. injection Hin as -> ->.
    exists name, args, (Http.remote ps). now rewrite Hcalltool.
  - intros j Hj Hnew.
    assert (Hne : i <> j).
    { intros ->. apply Hnew. rewrite map_app.
      apply list_elem_of_In, in_or_app. right. now left. }
    rewrite list_lookup_insert_ne by exact Hne. apply Hpend; [exact Hj|].
    intros Hold. apply Hnew. rewrite map_app.
    apply list_elem_of_In, in_or_app. left. now apply list_elem_of_In.
  - now rewrite map_app.
Qed.

(** All threads of a schedule run, one after the other. *)
Lemma threads_inv_schedule (schedule : list nat) (ps : Http.par_state) :
  inv ps ->
  NoDup schedule ->
  (forall i, i ∈ schedule ->
     i < length calls /\ i ∉ map Http.unit_of (Http.finished ps)) ->
  inv (fold_left run schedule ps)
  /\ map Http.unit_of (Http.finished (fold_left run schedule ps))
     = (map Http.unit_of (Http.finished ps) ++ schedule)%list.
Proof.
  revert ps. induction schedule as [|i schedule IH]; intros ps Hinv Hnd Hall.
  - simpl. now rewrite app_nil_r.
  - simpl. apply NoDup_cons in Hnd as [Hnotin Hnd].
    destruct (Hall i) as [Hi Hfresh]; [now left|].
    destruct (threads_inv_step ps i Hinv Hi Hfresh) as [Hinv' Hfin'].
    destruct (IH (run ps i) Hinv' Hnd) as [Hinv'' Hfin''].
    + intros j Hj. split; [apply Hall; now right|].
      rewrite Hfin'. intros Hin.
      apply list_elem_of_In, in_app_or in Hin as [Hin|[->|[]]].
      * apply (proj2 (Hall j ltac:(now right))). now apply list_elem_of_In.
      * now apply Hnotin.
    + split; [exact Hinv''|]. rewrite Hfin'', Hfin'.
      now rewrite <- app_assoc.
Qed.

(** After the last join: the invariant holds and the units that finished
    are those of the schedule, in its order. *)
Lemma threads_joined (schedule : list nat) (w : W) :
  schedule ≡ₚ seq 0 (length calls) ->
  let ps := fold_left run schedule
              (Http.mk_par (replicate (length calls) VNone)
                           (replicate (length calls) None) w []) in
  inv ps /\ map Http.unit_of (Http.finished ps) = schedule.
Proof.
  intros Hperm ps.
  apply (threads_inv_schedule schedule _ (threads_inv_initial w)).
  - rewrite Hperm. apply NoDup_seq.
  - intros i Hi. rewrite Hperm in Hi. apply elem_of_seq in Hi.
    split; [lia|]. simpl. apply not_elem_of_nil.
Qed.

End Threads.

(** ** Parallel calls, pipe variant *)

Section Batch.

Context `{PyRuntime}.

(** One iteration of the batch loop on an object, in closed form: a truthy
    [error] makes an error value and the payload is not looked at; otherwise
    the payload is decoded. *)
Lemma pipe_decode_slot_dict d :
  Pipe.decode_slot (VDict d)
  = if truthy (default VNone (assoc "error" d))
    then Return (Pipe.ErrorValue
                   (RuntimeError
                      ("Tool failed: "
                       ++ format_value (default VNone (assoc "error" d)))))
    else reread (default (VStr "") (assoc "data" d)) ≫= fun v =>
         Return (Pipe.Payload v).
Proof.
  unfold Pipe.decode_slot. simpl. rewrite pipe_decode_data_reread.
  destruct (assoc "error" d) as [e|]; simpl; [|reflexivity].
  now destruct (truthy e).
Qed.

Lemma pipe_decode_slot_decodable r :
  decodable r = true -> exists s, Pipe.decode_slot r = Return s.
Proof.
  destruct r as [| | | | | |d]; try discriminate. simpl. intros Hd.
  rewrite pipe_decode_slot_dict.
  destruct (truthy (default VNone (assoc "error" d))); [eauto|].
  simpl in Hd. apply negb_true_iff in Hd.
  rewrite (reread_reparse _ Hd). simpl. eauto.
Qed.

(** The loop keeps the order and the number of the response's elements. *)
Lemma pipe_decode_slots_spec rs :
  Forall (fun r => decodable r = true) rs ->
  exists slots,
    Pipe.decode_slots rs = Return slots
    /\ length slots = length rs
    /\ forall i r, rs !! i = Some r ->
         exists s, Pipe.decode_slot r = Return s /\ slots !! i = Some s.
Proof.
  induction 1 as [|r rs Hr _ IH]; simpl.
  - exists []. split; [reflexivity|]. split; [reflexivity|].
    intros i r Hi. now rewrite lookup_nil in Hi.
  - destruct (pipe_decode_slot_decodable r Hr) as [s Hs].
    destruct IH as (slots & Hslots & Hlen & Hpos).
    exists (s :: slots). rewrite Hs. simpl. rewrite Hslots. simpl.
    split; [reflexivity|]. split; [now rewrite Hlen|].
    intros [|i] r' Hi; simpl in *.
    + injection Hi as <-. eauto.
    + now apply Hpos.
Qed.

(** What [call_tools_parallel] makes of a response line that carries a
    list under [results]. *)
Lemma pipe_parallel_response calls st line rest d rs :
  readline (Pipe.proto_in st) = (line, rest) ->
  line <> "" ->
  json_loads line = Return (VDict d) ->
  assoc "results" d = Some (VList rs) ->
  fst (Pipe.call_tools_parallel calls st) = Pipe.decode_slots rs.
Proof.
  intros Hread Hline Hdoc Hres. unfold Pipe.call_tools_parallel.
  destruct (Pipe.build_batch calls (Pipe._call_id st)) as [batch n].
  rewrite Hread. apply String.eqb_neq in Hline. rewrite Hline. simpl.
  rewrite Hdoc. simpl. rewrite Hres. simpl.
  now destruct (Pipe.decode_slots rs).
Qed.

(** The request of a batch lists the calls in input order, each with the
    id drawn for it. *)
Lemma build_batch_entries (calls : list (string * value)) (k : nat) :
  fst (Pipe.build_batch calls k)
  = imap (fun i c => Pipe.batch_entry (k + S i) (fst c) (snd c)) calls.
Proof.
  revert k. induction calls as [|[name args] calls IH]; intros k; simpl.
  - reflexivity.
  - specialize (IH (S k)).
    destruct (Pipe.build_batch calls (S k)) as [batch last]. simpl in *.
    rewrite IH. unfold Pipe.batch_entry at 2. simpl.
    replace (k + 1) with (S k) by lia. f_equal.
    apply imap_ext. intros i [n a] _. simpl. f_equal. lia.
Qed.

(** The line [call_tools_parallel] writes. *)
Lemma pipe_parallel_request calls st :
  Pipe.proto_out (snd (Pipe.call_tools_parallel calls st))
  = Pipe.proto_out st
    ++ json_dumps
         (VDict [("type", VStr "tool_calls_parallel");
                 ("calls", VList (fst (Pipe.build_batch calls
                                         (Pipe._call_id st))))])
    ++ newline.
Proof.
  unfold Pipe.call_tools_parallel.
  destruct (Pipe.build_batch calls (Pipe._call_id st)) as [batch n].
  destruct (readline (Pipe.proto_in st)) as [line rest].
  now destruct (String.eqb line "").
Qed.

End Batch.

(** ** Ordered results and failures of parallel calls *)

Lemma lookup_map {A B : Type} (f : A -> B) (l : list A) (i : nat) :
  map f l !! i = f <$> (l !! i).
Proof.
  revert i. induction l as [|x l IH]; intros [|i]; simpl; try reflexivity.
  apply IH.
Qed.

Lemma unit_of_elem (trace : list Http.completion) (i : nat) :
  i ∈ map Http.unit_of trace -> exists r, Http.Completed i r ∈ trace.
Proof.
  intros Hin. apply list_elem_of_In, in_map_iff in Hin as ([j r] & Hj & Hin).
  simpl in Hj. subst j. exists r. now apply list_elem_of_In.
Qed.

(** After the join every position of [calls] has finished exactly as the
    schedule says. *)
Lemma joined_unit_finished `{PyRuntime} {W : Type}
  (urlopen : W -> string -> string -> Http.http_outcome * W) cfg calls
  schedule w i :
  schedule ≡ₚ seq 0 (length calls) ->
  i < length calls ->
  exists r,
    Http.Completed i r
      ∈ snd (Http.call_tools_parallel urlopen cfg schedule calls w).
Proof.
  intros Hperm Hi.
  destruct (threads_joined urlopen cfg calls schedule w Hperm) as [_ Hfin].
  apply unit_of_elem. unfold Http.call_tools_parallel. simpl. rewrite Hfin.
  rewrite Hperm. apply elem_of_seq. lia.
Qed.

(** C6: when every unit succeeds, [call_tools_parallel] returns one value
    per call and position [i] of the list holds the value [call_tool]
    returned for the call at position [i]: in the HTTP variant for every
    order in which the threads finish.  In the pipe variant the request
    lists the calls in input order, and when the agent answers every entry
    of it in that order with a result without error whose payload decodes,
    position [i] of the list holds the decoded payload of the answer to the
    call at position [i]. *)
Theorem parallel_results_in_input_order `{PyRuntime} :
  (forall W (urlopen : W -> string -> string -> Http.http_outcome * W)
     cfg schedule calls w,
     schedule ≡ₚ seq 0 (length calls) ->
     let out := Http.call_tools_parallel urlopen cfg schedule calls w in
     (forall i r, Http.Completed i r ∈ snd out -> exists v, r = Return v) ->
     exists vs,
       fst (fst out) = Return vs
       /\ length vs = length calls
       /\ forall i name args,
            calls !! i = Some (name, args) ->
            exists v w0,
              Http.Completed i (Return v) ∈ snd out
              /\ fst (Http.call_tool urlopen cfg name
                        (py_or args (VDict [])) w0) = Return v
              /\ vs !! i = Some v)
  /\ (forall calls st line rest d (agent : value -> value),
        readline (Pipe.proto_in st) = (line, rest) ->
        line <> "" ->
        json_loads line = Return (VDict d) ->
        assoc "results" d
          = Some (VList (map agent
                           (fst (Pipe.build_batch calls (Pipe._call_id st))))) ->
        (forall i name args,
           calls !! i = Some (name, args) ->
           exists dr,
             agent (Pipe.batch_entry (Pipe._call_id st + S i) name args)
               = VDict dr
             /\ truthy (default VNone (assoc "error" dr)) = false
             /\ parse_escapes (default (VStr "") (assoc "data" dr)) = false) ->
        Pipe.proto_out (snd (Pipe.call_tools_parallel calls st))
          = Pipe.proto_out st
            ++ json_dumps
                 (VDict [("type", VStr "tool_calls_parallel");
                         ("calls",
                          VList (imap (fun i c =>
                                         Pipe.batch_entry
                                           (Pipe._call_id st + S i)
                                           (fst c) (snd c)) calls))])
            ++ newline
        /\ exists slots,
             fst (Pipe.call_tools_parallel calls st) = Return slots
             /\ length slots = length calls
             /\ forall i name args,
                  calls !! i = Some (name, args) ->
                  exists dr,
                    agent (Pipe.batch_entry (Pipe._call_id st + S i) name args)
                      = VDict dr
                    /\ slots !! i
                       = Some (Pipe.Payload
                                 (reparse (default (VStr "")
                                             (assoc "data" dr))))).
Proof.
  split.
  - intros W urlopen cfg schedule calls w Hperm out Hok.
    destruct (threads_joined urlopen cfg calls schedule w Hperm)
      as [[Hrl Hel Hst Hgen Hpend] Hfin].
    assert (Hnone : Http.first_error (Http.errors
              (fold_left (Http.run_thread urlopen cfg calls) schedule
                 (Http.mk_par (replicate (length calls) VNone)
                    (replicate (length calls) None) w []))) = None).
    { apply first_error_None. intros i e Herr.
      assert (Hi : i < length calls).
      { rewrite <- Hel. eapply lookup_lt_Some, Herr. }
      destruct (joined_unit_finished urlopen cfg calls schedule w i Hperm Hi)
        as [r Hr].
      destruct (Hok i r Hr) as [v ->].
      destruct (Hst _ _ Hr) as [_ Hnone]. congruence. }
    eexists. split; [|split].
    + subst out. unfold Http.call_tools_parallel. simpl. now rewrite Hnone.
    + exact Hrl.
    + intros i name args Hcall.
      assert (Hi : i < length calls) by (eapply lookup_lt_Some, Hcall).
      destruct (joined_unit_finished urlopen cfg calls schedule w i Hperm Hi)
        as [r Hr].
      destruct (Hok i r Hr) as [v ->].
      destruct (Hgen _ _ Hr) as (name' & args' & w0 & Hcall' & Hv).
      rewrite Hcall in Hcall'. injection Hcall' as <- <-.
      exists v, w0. split; [exact Hr|]. split; [exact Hv|].
      now destruct (Hst _ _ Hr).
  - intros calls st line rest d agent Hread Hline Hdoc Hres Hok.
    split.
    { now rewrite pipe_parallel_request, build_batch_entries. }
    rewrite build_batch_entries in Hres.
    set (entries := imap (fun i c => Pipe.batch_entry (Pipe._call_id st + S i)
                                       (fst c) (snd c)) calls) in *.
    assert (Hanswer : forall i name args,
              calls !! i = Some (name, args) ->
              map agent entries !! i
              = Some (agent (Pipe.batch_entry (Pipe._call_id st + S i)
                               name args))).
    { intros i name args Hcall. subst entries.
      now rewrite lookup_map, list_lookup_imap, Hcall. }
    assert (Hshape : forall i r,
              map agent entries !! i = Some r ->
              exists name args, calls !! i = Some (name, args)).
    { intros i r Hi. subst entries.
      rewrite lookup_map, list_lookup_imap in Hi.
      destruct (calls !! i) as [[name args]|]; [eauto | discriminate]. }
    rewrite (pipe_parallel_response calls st line rest d _
               Hread Hline Hdoc Hres).
    destruct (pipe_decode_slots_spec (map agent entries))
      as (slots & Hslots & Hslen & Hpos).
    { apply Forall_lookup_2. intros i r Hi.
      destruct (Hshape i r Hi) as (name & args & Hcall).
      rewrite (Hanswer i name args Hcall) in Hi. injection Hi as <-.
      destruct (Hok i name args Hcall) as (dr & -> & Herr & Hesc).
      simpl. now rewrite Herr, Hesc. }
    exists slots. split; [exact Hslots|]. split.
    { rewrite Hslen, length_map. subst entries. apply length_imap. }
    intros i name args Hcall.
    destruct (Hok i name args Hcall) as (dr & Hdr & Herr & Hesc).
    exists dr. split; [exact Hdr|].
    destruct (Hpos i _ (Hanswer i name args Hcall)) as (s & Hs & Hsi).
    rewrite Hdr, pipe_decode_slot_dict, Herr, (reread_reparse _ Hesc) in Hs.
    simpl in Hs. congruence.
Qed.

(** The threads of the HTTP variant finish in the order 2, 0, 1 and the
    remote numbers its answers in that order; the pipe variant sends two
    calls to an agent that answers each with the name of its tool. *)
Lemma parallel_results_in_input_order_witness :
  (exists vs,
     fst (fst (Http.call_tools_parallel Mini.counting_remote Mini.demo_config
                 [2; 0; 1] [("a", VNone); ("b", VNone); ("c", VNone)] 0))
       = Return vs
     /\ length vs = 3
     /\ forall i name args,
          [("a", VNone); ("b", VNone); ("c", VNone)] !! i = Some (name, args) ->
          exists v w0,
            Http.Completed i (Return v)
              ∈ snd (Http.call_tools_parallel Mini.counting_remote
                       Mini.demo_config [2; 0; 1]
                       [("a", VNone); ("b", VNone); ("c", VNone)] 0)
            /\ fst (Http.call_tool Mini.counting_remote Mini.demo_config name
                      (py_or args (VDict [])) w0) = Return v
            /\ vs !! i = Some v)
  /\ (exists slots,
        fst (Pipe.call_tools_parallel [("a", VNone); ("b", VNone)]
               (Pipe.initial
                  (Mini.line_of
                     (VDict [("results",
                              VList (map Mini.name_agent
                                       (fst (Pipe.build_batch
                                               [("a", VNone); ("b", VNone)]
                                               0))))]))))
          = Return slots
        /\ length slots = 2
        /\ forall i name args,
             [("a", VNone); ("b", VNone)] !! i = Some (name, args) ->
             exists dr,
               Mini.name_agent (Pipe.batch_entry (0 + S i) name args)
                 = VDict dr
               /\ slots !! i
                  = Some (Pipe.Payload
                            (reparse (default (VStr "") (assoc "data" dr))))).
Proof.
  split.
  - apply (proj1 parallel_results_in_input_order nat Mini.counting_remote
             Mini.demo_config [2; 0; 1]
             [("a", VNone); ("b", VNone); ("c", VNone)] 0).
    + simpl. etrans; [apply Permutation_swap|].
      apply Permutation_skip, Permutation_swap.
    + intros i r Hin. vm_compute in Hin.
      repeat (apply elem_of_cons in Hin as [Hin|Hin];
              [injection Hin as -> ->; eauto|]).
      now apply elem_of_nil in Hin.
  - refine (proj2 (proj2 parallel_results_in_input_order
              [("a", VNone); ("b", VNone)]
              (Pipe.initial
                 (Mini.line_of
                    (VDict [("results",
                             VList (map Mini.name_agent
                                      (fst (Pipe.build_batch
                                              [("a", VNone); ("b", VNone)]
                                              0))))])))
              (Mini.line_of
                 (VDict [("results",
                          VList (map Mini.name_agent
                                   (fst (Pipe.build_batch
                                           [("a", VNone); ("b", VNone)]
                                           0))))]))
              ""
              [("results",
                VList (map Mini.name_agent
                         (fst (Pipe.build_batch
                                 [("a", VNone); ("b", VNone)] 0))))]
              Mini.name_agent eq_refl _ eq_refl eq_refl _)).
    + discriminate.
    + intros [|[|i]] name args Hcall; simpl in Hcall; try discriminate;
        injection Hcall as <- <-; eexists; repeat split.
Defined.

(** C1 as stated fails in the pipe variant: for the calls a and b answered
    by the batch response with results [{data: 1}, {error: boom}], the call
    returns normally and the second element of the returned list is a
    RuntimeError value. *)
Lemma pipe_parallel_returns_error_value :
  fst (Pipe.call_tools_parallel [("a", VNone); ("b", VNone)]
         (Pipe.initial
            (Mini.line_of
               (VDict [("results",
                        VList [VDict [("data", VStr "1")];
                               VDict [("error", VStr "boom")]])]))))
  = Return [Pipe.Payload (VInt 1);
            Pipe.ErrorValue (RuntimeError "Tool failed: boom")].
Proof. vm_compute. reflexivity. Qed.

(** C1, amended.  HTTP variant: when some unit fails, [call_tools_parallel]
    raises the exception of the failed unit that is first in input order,
    which is what [call_tool] raised for the call at that position, and by
    then every unit has finished, whatever the order in which the threads
    finish.  Pipe variant: a result with a non-empty error never makes the
    call raise; it becomes a RuntimeError value built from that error.  On
    a batch response in which every result is an object that either reports
    an error or carries a payload that [json.loads] reads or rejects with
    JSONDecodeError, the call returns normally, with one element per result
    and that value at each failed result's position. *)
Theorem parallel_failure_by_variant `{PyRuntime} :
  (forall W (urlopen : W -> string -> string -> Http.http_outcome * W)
     cfg schedule calls w,
     schedule ≡ₚ seq 0 (length calls) ->
     let out := Http.call_tools_parallel urlopen cfg schedule calls w in
     (exists i e, Http.Completed i (Raise e) ∈ snd out) ->
     exists i e name args w0,
       fst (fst out) = Raise e
       /\ Http.Completed i (Raise e) ∈ snd out
       /\ calls !! i = Some (name, args)
       /\ fst (Http.call_tool urlopen cfg name (py_or args (VDict [])) w0)
          = Raise e
       /\ (forall j e', Http.Completed j (Raise e') ∈ snd out -> i <= j)
       /\ map Http.unit_of (snd out) ≡ₚ seq 0 (length calls)
       /\ (forall j r,
             Http.Completed j r ∈ snd out ->
             exists name' args' w1,
               calls !! j = Some (name', args')
               /\ fst (Http.call_tool urlopen cfg name'
                         (py_or args' (VDict [])) w1) = r))
  /\ (forall dr e,
        assoc "error" dr = Some e ->
        truthy e = true ->
        Pipe.decode_slot (VDict dr)
          = Return (Pipe.ErrorValue
                      (RuntimeError ("Tool failed: " ++ format_value e))))
  /\ (forall calls st line rest d rs,
        readline (Pipe.proto_in st) = (line, rest) ->
        line <> "" ->
        json_loads line = Return (VDict d) ->
        assoc "results" d = Some (VList rs) ->
        Forall (fun r => decodable r = true) rs ->
        exists slots,
          fst (Pipe.call_tools_parallel calls st) = Return slots
          /\ length slots = length rs
          /\ forall i dr e,
               rs !! i = Some (VDict dr) ->
               assoc "error" dr = Some e ->
               truthy e = true ->
               slots !! i
                 = Some (Pipe.ErrorValue
                           (RuntimeError ("Tool failed: " ++ format_value e)))).
Proof.
  assert (Hfailed : forall dr e,
            assoc "error" dr = Some e -> truthy e = true ->
            Pipe.decode_slot (VDict dr)
            = Return (Pipe.ErrorValue
                        (RuntimeError ("Tool failed: " ++ format_value e)))).
  { intros dr e Herr Htruthy. rewrite pipe_decode_slot_dict, Herr. simpl.
    now rewrite Htruthy. }
  split; [|split; [exact Hfailed|]].
  - intros W urlopen cfg schedule calls w Hperm out (i0 & e0 & Hfail).
    destruct (threads_joined urlopen cfg calls schedule w Hperm)
      as [[Hrl Hel Hst Hgen Hpend] Hfin].
    subst out. unfold Http.call_tools_parallel in *. simpl in *.
    set (ps := fold_left (Http.run_thread urlopen cfg calls) schedule
                 (Http.mk_par (replicate (length calls) VNone)
                    (replicate (length calls) None) w [])) in *.
    destruct (Http.first_error (Http.errors ps)) as [e|] eqn:Hfirst.
    + destruct (first_error_Some _ _ Hfirst) as (i & Hi & Hbefore).
      assert (Hlt : i < length calls).
      { rewrite <- Hel. eapply lookup_lt_Some, Hi. }
      destruct (unit_of_elem (Http.finished ps) i) as [r Hr].
      { rewrite Hfin, Hperm. apply elem_of_seq. lia. }
      assert (Hraised : r = Raise e).
      { pose proof (Hst _ _ Hr) as Hslot. destruct r as [v|e'].
        - destruct Hslot as [_ Hnone]. congruence.
        - congruence. }
      subst r. destruct (Hgen _ _ Hr) as (name & args & w0 & Hcall & Hout).
      exists i, e, name, args, w0.
      split; [reflexivity|]. split; [exact Hr|]. split; [exact Hcall|].
      split; [exact Hout|]. split; [|split].
      * intros j e' Hj. specialize (Hst _ _ Hj). simpl in Hst.
        destruct (Nat.le_gt_cases i j) as [Hle|Hgt]; [exact Hle|].
        specialize (Hbefore j Hgt). congruence.
      * now rewrite Hfin.
      * exact Hgen.
    + exfalso. apply first_error_None with (i := i0) (e := e0) in Hfirst.
      apply Hfirst. apply (Hst _ _ Hfail).
  - intros calls st line rest d rs Hread Hline Hdoc Hres Hdicts.
    rewrite (pipe_parallel_response calls st line rest d rs Hread Hline Hdoc Hres).
    destruct (pipe_decode_slots_spec rs Hdicts) as (slots & Hslots & Hlen & Hpos).
    exists slots. split; [exact Hslots|]. split; [exact Hlen|].
    intros i dr e Hi Herr Htruthy.
    destruct (Hpos i _ Hi) as (s & Hs & Hsi).
    rewrite (Hfailed dr e Herr Htruthy) in Hs. congruence.
Qed.

(** Both units of the HTTP variant fail; unit 1 finishes first, and the
    exception raised is that of unit 0.  The pipe variant reads the
    response with one failed result. *)
Lemma parallel_failure_by_variant_witness :
  (exists i e name args w0,
     fst (fst (Http.call_tools_parallel Mini.failing_remote Mini.demo_config
                 [1; 0] [("a", VNone); ("b", VNone)] 0)) = Raise e
     /\ Http.Completed i (Raise e)
          ∈ snd (Http.call_tools_parallel Mini.failing_remote Mini.demo_config
                   [1; 0] [("a", VNone); ("b", VNone)] 0)
     /\ [("a", VNone); ("b", VNone)] !! i = Some (name, args)
     /\ fst (Http.call_tool Mini.failing_remote Mini.demo_config name
               (py_or args (VDict [])) w0) = Raise e
     /\ (forall j e',
           Http.Completed j (Raise e')
             ∈ snd (Http.call_tools_parallel Mini.failing_remote
                      Mini.demo_config [1; 0] [("a", VNone); ("b", VNone)] 0) ->
           i <= j)
     /\ map Http.unit_of
          (snd (Http.call_tools_parallel Mini.failing_remote Mini.demo_config
                  [1; 0] [("a", VNone); ("b", VNone)] 0))
        ≡ₚ seq 0 2
     /\ (forall j r,
           Http.Completed j r
             ∈ snd (Http.call_tools_parallel Mini.failing_remote
                      Mini.demo_config [1; 0] [("a", VNone); ("b", VNone)] 0) ->
           exists name' args' w1,
             [("a", VNone); ("b", VNone)] !! j = Some (name', args')
             /\ fst (Http.call_tool Mini.failing_remote Mini.demo_config name'
                       (py_or args' (VDict [])) w1) = r))
  /\ (exists slots,
        fst (Pipe.call_tools_parallel [("a", VNone); ("b", VNone)]
               (Pipe.initial
                  (Mini.line_of
                     (VDict [("results",
                              VList [VDict [("data", VStr "1")];
                                     VDict [("error", VStr "boom")]])]))))
          = Return slots
        /\ length slots = 2
        /\ forall i dr e,
             [VDict [("data", VStr "1")]; VDict [("error", VStr "boom")]] !! i
               = Some (VDict dr) ->
             assoc "error" dr = Some e ->
             truthy e = true ->
             slots !! i
               = Some (Pipe.ErrorValue
                         (RuntimeError ("Tool failed: " ++ format_value e)))).
Proof.
  split.
  - apply (proj1 parallel_failure_by_variant nat Mini.failing_remote
             Mini.demo_config [1; 0] [("a", VNone); ("b", VNone)] 0).
    + simpl. apply Permutation_swap.
    + exists 1, (RuntimeError "Tool 'b': HTTP 500: down").
      vm_compute. left.
  - eapply (proj2 (proj2 parallel_failure_by_variant)
              [("a", VNone); ("b", VNone)]
              _ _ _ _
              [VDict [("data", VStr "1")]; VDict [("error", VStr "boom")]]).
    + reflexivity.
    + discriminate.
    + reflexivity.
    + reflexivity.
    + repeat constructor.
Defined.

(** ** Correlation ids on the inbound side *)

Lemma assoc_drop_key (k k' : string) (d : list (string * value)) :
  k <> k' -> assoc k (drop_key k' d) = assoc k d.
Proof.
  intros Hne. induction d as [|[k0 v] d IH]; simpl; [reflexivity|].
  destruct (String.eqb_spec k' k0) as [<-|Hk0]; simpl.
  - apply String.eqb_neq in Hne. now rewrite Hne.
  - now rewrite IH.
Qed.

Section ResponseIds.

Context `{PyRuntime}.

Lemma pipe_decode_data_strip_id d :
  Pipe.decode_data (VDict (drop_key "id" d)) = Pipe.decode_data (VDict d).
Proof.
  unfold Pipe.decode_data. simpl.
  now rewrite (assoc_drop_key "data" "id" d) by discriminate.
Qed.

Lemma pipe_decode_response_strip_id name d :
  Pipe.decode_response name (VDict (drop_key "id" d))
  = Pipe.decode_response name (VDict d).
Proof.
  unfold Pipe.decode_response. simpl.
  rewrite (assoc_drop_key "type" "id" d) by discriminate.
  rewrite (assoc_drop_key "error" "id" d) by discriminate.
  now rewrite pipe_decode_data_strip_id.
Qed.

Lemma pipe_decode_slot_strip_id r :
  Pipe.decode_slot (strip_id r) = Pipe.decode_slot r.
Proof.
  destruct r as [| | | | | |d]; try reflexivity.
  unfold Pipe.decode_slot. simpl.
  rewrite (assoc_drop_key "error" "id" d) by discriminate.
  now rewrite pipe_decode_data_strip_id.
Qed.

Lemma pipe_decode_slots_strip_id rs :
  Pipe.decode_slots (map strip_id rs) = Pipe.decode_slots rs.
Proof.
  induction rs as [|r rs IH]; simpl; [reflexivity|].
  now rewrite pipe_decode_slot_strip_id, IH.
Qed.

End ResponseIds.

(** C7 as stated fails: the first call of a script is sent with id tc_1 and
    answered by a response that carries id tc_999; [call_tool] returns the
    payload 42 of that response. *)
Lemma unmatched_id_accepted :
  Pipe.call_tool "search" VNone
    (Pipe.initial
       (Mini.line_of
          (VDict [("type", VStr "tool_result"); ("id", VStr "tc_999");
                  ("data", VStr "42")])))
  = (Return (VInt 42),
     Pipe.mk_state 1 VNone
       (Mini.line_of (Pipe.tool_call_msg "tc_1" "search" VNone)) "").
Proof. vm_compute. reflexivity. Qed.

(** C7, amended: the client does not match responses by correlation id.  A
    single call takes the next line of the inbound stream as its answer and
    a batch takes the elements of [results] by position; in both, the
    outcome is the one for the response with every [id] member erased, so an
    id that is unmatched, duplicated or absent changes nothing. *)
Theorem response_id_ignored `{PyRuntime} :
  (forall name args st line rest d,
     readline (Pipe.proto_in st) = (line, rest) ->
     line <> "" ->
     json_loads line = Return (VDict d) ->
     fst (Pipe.call_tool name args st)
       = Pipe.decode_response name (strip_id (VDict d)))
  /\ (forall calls st line rest d rs,
        readline (Pipe.proto_in st) = (line, rest) ->
        line <> "" ->
        json_loads line = Return (VDict d) ->
        assoc "results" d = Some (VList rs) ->
        fst (Pipe.call_tools_parallel calls st)
          = Pipe.decode_slots (map strip_id rs)).
Proof.
  split.
  - intros name args st line rest d Hread Hline Hdoc.
    unfold Pipe.call_tool. rewrite Hread.
    apply String.eqb_neq in Hline. rewrite Hline. simpl. rewrite Hdoc.
    symmetry. apply pipe_decode_response_strip_id.
  - intros calls st line rest d rs Hread Hline Hdoc Hres.
    rewrite pipe_decode_slots_strip_id.
    now apply (pipe_parallel_response calls st line rest d rs).
Qed.

(** Two calls answered by responses that both carry the id tc_7: each is
    accepted, as the responses without that member would be. *)
Lemma response_id_ignored_witness :
  fst (Pipe.call_tool "search" VNone
         (Pipe.initial
            (Mini.line_of
               (VDict [("id", VStr "tc_7"); ("data", VStr "[1]")])
             ++ Mini.line_of
                  (VDict [("id", VStr "tc_7"); ("data", VStr "[2]")]))))
    = Pipe.decode_response "search" (strip_id
        (VDict [("id", VStr "tc_7"); ("data", VStr "[1]")]))
  /\ fst (Pipe.call_tool "search" VNone
            (snd (Pipe.call_tool "search" VNone
               (Pipe.initial
                  (Mini.line_of
                     (VDict [("id", VStr "tc_7"); ("data", VStr "[1]")])
                   ++ Mini.line_of
                        (VDict [("id", VStr "tc_7"); ("data", VStr "[2]")]))))))
    = Pipe.decode_response "search" (strip_id
        (VDict [("id", VStr "tc_7"); ("data", VStr "[2]")])).
Proof.
  split.
  - eapply (proj1 response_id_ignored); [reflexivity | discriminate | reflexivity].
  - eapply (proj1 response_id_ignored); [reflexivity | discriminate | reflexivity].
Defined.

(** ** Correlation ids on the outbound side *)

Lemma string_app_assoc (a b c : string) : (a ++ b) ++ c = a ++ b ++ c.
Proof.
  induction a as [|x a IH]; [reflexivity|].
  change (String x ((a ++ b) ++ c) = String x (a ++ b ++ c)).
  now rewrite IH.
Qed.

Lemma string_app_nil_r (a : string) : a ++ "" = a.
Proof.
  induction a as [|x a IH]; [reflexivity|].
  change (String x (a ++ "") = String x a). now rewrite IH.
Qed.

Lemma str_of_nat_inj (a b : nat) : str_of_nat a = str_of_nat b -> a = b.
Proof.
  unfold str_of_nat. intros Heq.
  apply (f_equal NilEmpty.uint_of_string) in Heq.
  rewrite !NilEmpty.usu in Heq. injection Heq as Heq.
  now apply Unsigned.to_uint_inj.
Qed.

Lemma correlation_id_inj (a b : nat) :
  Pipe.correlation_id a = Pipe.correlation_id b -> a = b.
Proof.
  unfold Pipe.correlation_id. simpl. intros Heq.
  injection Heq as Heq. now apply str_of_nat_inj.
Qed.

Lemma NoDup_correlation_ids (start len : nat) :
  NoDup (map Pipe.correlation_id (seq start len)).
Proof.
  revert start. induction len as [|len IH]; intros start; simpl.
  - constructor.
  - constructor; [|apply IH].
    intros Hin. apply list_elem_of_In, in_map_iff in Hin as (j & Hj & Hin).
    apply correlation_id_inj in Hj. subst j. apply in_seq in Hin. lia.
Qed.

Section Outbound.

Context `{PyRuntime}.

Lemma wire_app (a b : list value) :
  Pipe.wire (a ++ b)%list = Pipe.wire a ++ Pipe.wire b.
Proof.
  induction a as [|m a IH]; simpl; [reflexivity|].
  now rewrite IH, !string_app_assoc.
Qed.

(** The loop of [call_tools_parallel] draws one id per call, counting on
    from the shared counter. *)
Lemma build_batch_ids (calls : list (string * value)) (k : nat) :
  snd (Pipe.build_batch calls k) = k + length calls
  /\ concat (map Pipe.id_of (fst (Pipe.build_batch calls k)))
     = map Pipe.correlation_id (seq (S k) (length calls)).
Proof.
  revert k. induction calls as [|[name args] calls IH]; intros k; simpl.
  - split; [lia | reflexivity].
  - destruct (IH (S k)) as [Hlast Hids].
    destruct (Pipe.build_batch calls (S k)) as [batch last]. simpl in *.
    split; [lia|]. f_equal. exact Hids.
Qed.

Lemma op_requests_ids (o : Pipe.op) (k : nat) :
  k <= snd (Pipe.op_requests o k)
  /\ concat (map Pipe.request_ids (fst (Pipe.op_requests o k)))
     = map Pipe.correlation_id (seq (S k) (snd (Pipe.op_requests o k) - k)).
Proof.
  destruct o as [name args|calls|data]; simpl.
  - split; [lia|]. now replace (S k - k) with 1 by lia.
  - destruct (build_batch_ids calls k) as [Hlast Hids].
    destruct (Pipe.build_batch calls k) as [batch last]. simpl in *.
    split; [lia|]. rewrite app_nil_r. unfold Pipe.request_ids. simpl.
    rewrite Hids.
    now replace (last - k) with (length calls) by lia.
  - split; [lia|]. now rewrite Nat.sub_diag.
Qed.

(** What one call of the script does to the counter and to fd 1. *)
Lemma run_op_requests (o : Pipe.op) (st : Pipe.state) :
  Pipe._call_id (Pipe.run_op o st)
    = snd (Pipe.op_requests o (Pipe._call_id st))
  /\ Pipe.proto_out (Pipe.run_op o st)
     = Pipe.proto_out st
       ++ Pipe.wire (fst (Pipe.op_requests o (Pipe._call_id st))).
Proof.
  destruct o as [name args|calls|data]; simpl.
  - unfold Pipe.call_tool.
    destruct (readline (Pipe.proto_in st)) as [line rest].
    destruct (String.eqb line ""); simpl;
      (split; [reflexivity | now rewrite string_app_nil_r]).
  - unfold Pipe.call_tools_parallel.
    destruct (Pipe.build_batch calls (Pipe._call_id st)) as [batch last].
    destruct (readline (Pipe.proto_in st)) as [line rest].
    destruct (String.eqb line ""); simpl;
      (split; [reflexivity | now rewrite string_app_nil_r]).
  - split; [reflexivity | now rewrite string_app_nil_r].
Qed.

Lemma run_script_requests (script : list Pipe.op) (st : Pipe.state) :
  Pipe._call_id st <= Pipe._call_id (Pipe.run_script script st)
  /\ Pipe.proto_out (Pipe.run_script script st)
     = Pipe.proto_out st
       ++ Pipe.wire (Pipe.script_requests script (Pipe._call_id st))
  /\ concat (map Pipe.request_ids
               (Pipe.script_requests script (Pipe._call_id st)))
     = map Pipe.correlation_id
         (seq (S (Pipe._call_id st))
              (Pipe._call_id (Pipe.run_script script st) - Pipe._call_id st)).
Proof.
  revert st. induction script as [|o script IH]; intros st; simpl.
  - split; [lia|]. split; [now rewrite string_app_nil_r|].
    now rewrite Nat.sub_diag.
  - destruct (run_op_requests o st) as [Hid Hout].
    destruct (op_requests_ids o (Pipe._call_id st)) as [Hle Hids].
    destruct (IH (Pipe.run_op o st)) as (Hle' & Hout' & Hids').
    destruct (Pipe.op_requests o (Pipe._call_id st)) as [msgs k'] eqn:Hop.
    simpl in *. rewrite Hid in *.
    split; [unfold Pipe.run_script in *; simpl; lia|].
    split.
    + unfold Pipe.run_script in *. simpl. rewrite Hout', Hout.
      now rewrite wire_app, string_app_assoc.
    + rewrite map_app, concat_app, Hids, Hids'. rewrite <- map_app.
      f_equal. unfold Pipe.run_script in *. simpl.
      set (k := Pipe._call_id st) in *.
      set (k'' := Pipe._call_id (fold_left _ script _)) in *.
      replace (k'' - k) with ((k' - k) + (k'' - k')) by lia.
      rewrite seq_app. do 2 f_equal. lia.
Qed.

End Outbound.

(** C10: in the pipe variant every id comes from the one counter
    [_call_id], incremented before the id is made.  For any script of
    single and batched calls and any input, what the script wrote to fd 1
    is the lines of its request documents, and the correlation ids those
    documents carry are tc_1, tc_2, ... up to the final counter value, in
    that order: no id is issued twice during the execution. *)
Theorem correlation_ids_unique `{PyRuntime} :
  forall (script : list Pipe.op) (input : string),
    let st := Pipe.run_script script (Pipe.initial input) in
    let msgs := Pipe.script_requests script 0 in
    Pipe.proto_out st = Pipe.wire msgs
    /\ concat (map Pipe.request_ids msgs)
       = map Pipe.correlation_id (seq 1 (Pipe._call_id st))
    /\ NoDup (concat (map Pipe.request_ids msgs)).
Proof.
  intros script input st msgs.
  destruct (run_script_requests script (Pipe.initial input))
    as (_ & Hout & Hids).
  simpl in Hout, Hids. rewrite Nat.sub_0_r in Hids.
  split; [exact Hout|]. split; [exact Hids|].
  subst msgs. rewrite Hids. apply NoDup_correlation_ids.
Qed.

(** * Further properties of the guards *)

Lemma prefix_app_same (ws a b : string) :
  String.prefix (ws ++ a) (ws ++ b) = String.prefix a b.
Proof.
  induction ws as [|c ws IH]; [reflexivity|].
  change (String.prefix (String c (ws ++ a)) (String c (ws ++ b))
          = String.prefix a b).
  change (String.prefix (String c (ws ++ a)) (String c (ws ++ b)))
    with (if ascii_dec c c then String.prefix (ws ++ a) (ws ++ b) else false).
  destruct (ascii_dec c c) as [_|Hne]; [exact IH | now destruct Hne].
Qed.

Lemma string_app_self_nil (ws s : string) : ws ++ s = ws -> s = "".
Proof.
  intros Heq. apply (f_equal String.length) in Heq.
  rewrite string_length_app in Heq. destruct s; [reflexivity|].
  simpl in Heq. lia.
Qed.

(** X1: whatever the path and the filesystem, what a path guard hands to
    the original primitive is the resolved path, not the path as the caller
    wrote it, and it lies in the workspace: at or below the root for [open],
    strictly below it for [remove], [rmdir] and [rmtree]. *)
Theorem guards_forward_only_inside :
  forall (realpath : string -> string) (ws p : string) (args : pyargs)
         (c : Guard.prim_call),
    (Guard._safe_open realpath ws (Guard.PathStr p) args = Return c ->
     c = Guard.BuiltinOpen (realpath (path_join ws p)) args
     /\ inside ws (realpath (path_join ws p)) = true)
    /\ (Guard._safe_remove realpath ws p args = Return c ->
        c = Guard.OriginalRemove (realpath (path_join ws p)) args
        /\ startswith (realpath (path_join ws p)) (ws ++ sep) = true
        /\ realpath (path_join ws p) <> ws)
    /\ (Guard._safe_rmdir realpath ws p args = Return c ->
        c = Guard.OriginalRmdir (realpath (path_join ws p)) args
        /\ startswith (realpath (path_join ws p)) (ws ++ sep) = true
        /\ realpath (path_join ws p) <> ws)
    /\ (Guard._safe_rmtree realpath ws p args = Return c ->
        c = Guard.OriginalRmtree (realpath p) args
        /\ startswith (realpath p) (ws ++ sep) = true
        /\ realpath p <> ws).
Proof.
  intros realpath ws p args c.
  unfold Guard._safe_open, Guard._safe_remove, Guard._safe_rmdir,
    Guard._safe_rmtree, inside. simpl.
  split; [|split; [|split]].
  - destruct (startswith (realpath (path_join ws p)) (ws ++ sep)) eqn:Hs;
      destruct (String.eqb (realpath (path_join ws p)) ws) eqn:He; simpl;
      intros [= <-]; auto.
  - destruct (startswith (realpath (path_join ws p)) (ws ++ sep)) eqn:Hs;
      simpl; intros [= <-].
    repeat split. apply String.eqb_neq. now apply startswith_sep_neq.
  - destruct (startswith (realpath (path_join ws p)) (ws ++ sep)) eqn:Hs;
      simpl; intros [= <-].
    repeat split. apply String.eqb_neq. now apply startswith_sep_neq.
  - destruct (startswith (realpath p) (ws ++ sep)) eqn:Hs; simpl;
      [|intros [=]].
    rewrite (startswith_sep_neq _ _ Hs). intros [= <-].
    repeat split. apply String.eqb_neq. now apply startswith_sep_neq.
Qed.

(** Under /ws the relative path sub/../a.txt is handed to the built-in open
    as /ws/a.txt. *)
Lemma guards_forward_only_inside_witness :
  Guard.BuiltinOpen "/ws/a.txt" no_args
    = Guard.BuiltinOpen
        (Guard.realpath_nolinks "/tmp" (path_join "/ws" "sub/../a.txt"))
        no_args
  /\ inside "/ws"
       (Guard.realpath_nolinks "/tmp" (path_join "/ws" "sub/../a.txt"))
     = true.
Proof.
  exact (proj1 (guards_forward_only_inside (Guard.realpath_nolinks "/tmp")
                  "/ws" "sub/../a.txt" no_args
                  (Guard.BuiltinOpen "/ws/a.txt" no_args))
           eq_refl).
Defined.

(** X2: a path that resolves to the workspace root itself can be opened
    but not removed: [os.remove] and [os.rmdir] refuse it, reporting it as
    outside the workspace, and the original primitive is not reached. *)
Theorem root_opens_but_is_not_removed :
  forall (realpath : string -> string) (ws p : string) (args : pyargs),
    realpath (path_join ws p) = ws ->
    Guard._safe_open realpath ws (Guard.PathStr p) args
      = Return (Guard.BuiltinOpen ws args)
    /\ Guard._safe_remove realpath ws p args
      = Raise (PermissionError ("cannot delete outside workspace: " ++ p))
    /\ Guard._safe_rmdir realpath ws p args
      = Raise (PermissionError ("cannot delete outside workspace: " ++ p)).
Proof.
  intros realpath ws p args Hroot.
  unfold Guard._safe_open, Guard._safe_remove, Guard._safe_rmdir. simpl.
  rewrite Hroot, not_startswith_self_sep, String.eqb_refl. simpl.
  repeat split.
Qed.

(** With workspace /ws, the path [.] resolves to the root. *)
Lemma root_opens_but_is_not_removed_witness :
  Guard._safe_open (Guard.realpath_nolinks "/tmp") "/ws" (Guard.PathStr ".")
    no_args = Return (Guard.BuiltinOpen "/ws" no_args)
  /\ Guard._safe_remove (Guard.realpath_nolinks "/tmp") "/ws" "." no_args
    = Raise (PermissionError "cannot delete outside workspace: .")
  /\ Guard._safe_rmdir (Guard.realpath_nolinks "/tmp") "/ws" "." no_args
    = Raise (PermissionError "cannot delete outside workspace: .").
Proof.
  exact (root_opens_but_is_not_removed (Guard.realpath_nolinks "/tmp")
           "/ws" "." no_args eq_refl).
Defined.

(** X3: a directory whose name merely begins with the workspace's name is
    outside it.  When the resolved path is the root followed by a non-empty
    suffix that does not start with a separator (as /ws-old/x under /ws),
    [open], [remove], [rmdir] and [rmtree] all raise PermissionError. *)
Theorem sibling_prefix_is_outside :
  forall (realpath : string -> string) (ws p suffix : string) (args : pyargs),
    suffix <> "" ->
    startswith suffix sep = false ->
    (realpath (path_join ws p) = ws ++ suffix ->
     Guard._safe_open realpath ws (Guard.PathStr p) args
       = Raise (PermissionError
           ("access denied: " ++ p ++ " is outside workspace (" ++ ws ++ ")"))
     /\ Guard._safe_remove realpath ws p args
       = Raise (PermissionError ("cannot delete outside workspace: " ++ p))
     /\ Guard._safe_rmdir realpath ws p args
       = Raise (PermissionError ("cannot delete outside workspace: " ++ p)))
    /\ (realpath p = ws ++ suffix ->
        Guard._safe_rmtree realpath ws p args
          = Raise (PermissionError ("cannot delete outside workspace: " ++ p))).
Proof.
  intros realpath ws p suffix args Hne Hsep.
  assert (Hout : startswith (ws ++ suffix) (ws ++ sep) = false).
  { unfold startswith in *. now rewrite prefix_app_same. }
  assert (Hneq : String.eqb (ws ++ suffix) ws = false).
  { apply String.eqb_neq. intros Heq. now apply string_app_self_nil in Heq. }
  split.
  - intros Hres.
    unfold Guard._safe_open, Guard._safe_remove, Guard._safe_rmdir. simpl.
    rewrite Hres, Hout, Hneq. simpl. repeat split.
  - intros Hres. unfold Guard._safe_rmtree. simpl.
    now rewrite Hres, Hout.
Qed.

(** Under /ws, the path /ws-old/x is refused by every guard. *)
Lemma sibling_prefix_is_outside_witness :
  Guard._safe_open (Guard.realpath_nolinks "/tmp") "/ws"
    (Guard.PathStr "/ws-old/x") no_args
    = Raise (PermissionError
        "access denied: /ws-old/x is outside workspace (/ws)")
  /\ Guard._safe_rmtree (Guard.realpath_nolinks "/tmp") "/ws" "/ws-old/x"
       no_args
    = Raise (PermissionError "cannot delete outside workspace: /ws-old/x").
Proof.
  destruct (sibling_prefix_is_outside (Guard.realpath_nolinks "/tmp") "/ws"
              "/ws-old/x" "-old/x" no_args) as [Hjoined Htree];
    [discriminate | reflexivity |].
  split.
  - apply Hjoined. reflexivity.
  - apply Htree. reflexivity.
Defined.

(** X4: when the workspace root is the filesystem root /, the test
    [startswith(_workspace + os.sep)] asks for a leading //, which a resolved
    path does not have: [remove] and [rmdir] refuse every path, [rmtree]
    too, and [open] accepts a path only if it resolves to / itself. *)
Theorem workspace_at_filesystem_root :
  forall (realpath : string -> string) (p : string) (args : pyargs),
    startswith (realpath (path_join "/" p)) "//" = false ->
    Guard._safe_remove realpath "/" p args
      = Raise (PermissionError ("cannot delete outside workspace: " ++ p))
    /\ Guard._safe_rmdir realpath "/" p args
      = Raise (PermissionError ("cannot delete outside workspace: " ++ p))
    /\ Guard._safe_open realpath "/" (Guard.PathStr p) args
      = (if String.eqb (realpath (path_join "/" p)) "/"
         then Return (Guard.BuiltinOpen "/" args)
         else Raise (PermissionError
                ("access denied: " ++ p ++ " is outside workspace (/)")))
    /\ (startswith (realpath p) "//" = false ->
        Guard._safe_rmtree realpath "/" p args
          = Raise (PermissionError ("cannot delete outside workspace: " ++ p))).
Proof.
  intros realpath p args Hres.
  unfold Guard._safe_remove, Guard._safe_rmdir, Guard._safe_open,
    Guard._safe_rmtree. simpl.
  change ("/" ++ sep) with "//". rewrite Hres. simpl.
  repeat split.
  - destruct (String.eqb_spec (realpath (path_join "/" p)) "/") as [->|_];
      reflexivity.
  - intros Htree. now rewrite Htree.
Qed.

(** With workspace /, the file etc/hosts can be neither removed nor
    opened. *)
Lemma workspace_at_filesystem_root_witness :
  Guard._safe_remove (Guard.realpath_nolinks "/") "/" "etc/hosts" no_args
    = Raise (PermissionError "cannot delete outside workspace: etc/hosts")
  /\ Guard._safe_open (Guard.realpath_nolinks "/") "/"
       (Guard.PathStr "etc/hosts") no_args
    = Raise (PermissionError
        "access denied: etc/hosts is outside workspace (/)").
Proof.
  destruct (workspace_at_filesystem_root (Guard.realpath_nolinks "/")
              "etc/hosts" no_args eq_refl) as (Hremove & _ & Hopen & _).
  split; [exact Hremove | exact Hopen].
Defined.

(** * Further properties of the pipe client *)

Lemma readline_line (l rest : string) :
  no_newline l = true ->
  readline (l ++ newline ++ rest) = (l ++ newline, rest).
Proof.
  induction l as [|c l IH]; intros Hl.
  - reflexivity.
  - simpl in Hl. apply andb_prop in Hl as [Hc Hl].
    change (readline (String c (l ++ newline ++ rest))
            = (String c (l ++ newline), rest)).
    simpl. apply negb_true_iff in Hc. rewrite Hc. now rewrite (IH Hl).
Qed.

Lemma line_not_empty (l : string) : l ++ newline <> "".
Proof. destruct l; discriminate. Qed.

Section PipeClient.

Context `{PyRuntime}.

(** What [call_tool] does once a line was read. *)
Lemma pipe_call_tool_line name args st line rest :
  readline (Pipe.proto_in st) = (line, rest) ->
  line <> "" ->
  Pipe.call_tool name args st
  = (Pipe.answer name line,
     Pipe.mk_state (S (Pipe._call_id st)) (Pipe._final_result st)
       (Pipe.proto_out st
        ++ json_dumps (Pipe.tool_call_msg
                         (Pipe.correlation_id (S (Pipe._call_id st)))
                         name args)
        ++ newline)
       rest).
Proof.
  intros Hread Hline. unfold Pipe.call_tool, Pipe.answer. rewrite Hread.
  apply String.eqb_neq in Hline. now rewrite Hline.
Qed.

Lemma pipe_decode_slot_non_dict r :
  is_dict r = false -> Pipe.decode_slot r = Raise AttributeError.
Proof. destruct r; try discriminate; reflexivity. Qed.

(** The loop stops at the first element that is not an object, when the
    elements before it were decoded. *)
Lemma pipe_decode_slots_stops (before after : list value) r :
  Forall (fun r => decodable r = true) before ->
  is_dict r = false ->
  Pipe.decode_slots (before ++ r :: after)%list = Raise AttributeError.
Proof.
  intros Hbefore Hr. induction Hbefore as [|r0 before Hr0 _ IH]; simpl.
  - now rewrite (pipe_decode_slot_non_dict r Hr).
  - destruct (pipe_decode_slot_decodable r0 Hr0) as [s0 Hs0].
    rewrite Hs0. simpl. now rewrite IH.
Qed.

(** With an element that is not an object somewhere, the loop raises. *)
Lemma pipe_decode_slots_raises rs :
  Exists (fun r => is_dict r = false) rs ->
  exists e, Pipe.decode_slots rs = Raise e.
Proof.
  induction rs as [|r rs IH]; intros Hex.
  - now apply Exists_nil in Hex.
  - simpl. destruct (Pipe.decode_slot r) as [s|e] eqn:Hs; simpl; [|eauto].
    apply Exists_cons in Hex as [Hhere|Hlater].
    + rewrite (pipe_decode_slot_non_dict r Hhere) in Hs. discriminate.
    + destruct (IH Hlater) as [e He]. rewrite He. simpl. eauto.
Qed.

End PipeClient.



(** X6: the two paths of the pipe client tell a failed tool by different
    members of the response.  A single call takes the response for a failed
    tool exactly when [type] is tool_error: it raises RuntimeError carrying
    the [error] member, or KeyError when that member is missing, and under
    any other [type] an [error] member is ignored and the payload is
    decoded.  A batch element is taken for a failed tool exactly when its
    [error] member is truthy, whatever its [type]; otherwise its payload is
    decoded. *)
Theorem pipe_failure_criteria `{PyRuntime} :
  forall (name : string) (args : value) (st : Pipe.state)
         (line rest : string) (d : list (string * value)),
    readline (Pipe.proto_in st) = (line, rest) ->
    line <> "" ->
    json_loads line = Return (VDict d) ->
    (forall e,
       assoc "type" d = Some (VStr "tool_error") ->
       assoc "error" d = Some e ->
       fst (Pipe.call_tool name args st)
         = Raise (RuntimeError
             ("Tool '" ++ name ++ "' failed: " ++ format_value e)))
    /\ (assoc "type" d = Some (VStr "tool_error") ->
        assoc "error" d = None ->
        fst (Pipe.call_tool name args st) = Raise (KeyError "error"))
    /\ (assoc "type" d <> Some (VStr "tool_error") ->
        fst (Pipe.call_tool name args st)
          = reread (default (VStr "") (assoc "data" d)))
    /\ (truthy (default VNone (assoc "error" d)) = false ->
        Pipe.decode_slot (VDict d)
          = reread (default (VStr "") (assoc "data" d)) ≫= fun v =>
            Return (Pipe.Payload v))
    /\ (forall e,
          assoc "error" d = Some e ->
          truthy e = true ->
          Pipe.decode_slot (VDict d)
            = Return (Pipe.ErrorValue
                        (RuntimeError ("Tool failed: " ++ format_value e)))).
Proof.
  intros name args st line rest d Hread Hline Hdoc.
  rewrite (pipe_call_tool_line name args st line rest Hread Hline).
  unfold Pipe.answer. rewrite Hdoc. simpl.
  split; [|split; [|split; [|split]]].
  - intros e Hty Herr. unfold Pipe.decode_response. simpl.
    now rewrite Hty, Herr.
  - intros Hty Herr. unfold Pipe.decode_response. simpl.
    now rewrite Hty, Herr.
  - intros Hty. unfold Pipe.decode_response. simpl.
    rewrite (not_tool_error d Hty). apply pipe_decode_data_reread.
  - intros Herr. now rewrite pipe_decode_slot_dict, Herr.
  - intros e Herr Htruthy. rewrite pipe_decode_slot_dict, Herr. simpl.
    now rewrite Htruthy.
Qed.

(** A response that carries an [error] member under the type tool_result:
    the single call decodes its payload, the batch path makes it an error
    value. *)
Lemma pipe_failure_criteria_witness :
  fst (Pipe.call_tool "search" VNone
         (Pipe.initial
            (Mini.line_of
               (VDict [("type", VStr "tool_result");
                       ("error", VStr "boom"); ("data", VStr "7")]))))
    = reread (VStr "7")
  /\ Pipe.decode_slot
       (VDict [("type", VStr "tool_result");
               ("error", VStr "boom"); ("data", VStr "7")])
     = Return (Pipe.ErrorValue (RuntimeError "Tool failed: boom")).
Proof.
  destruct (pipe_failure_criteria "search" VNone
              (Pipe.initial
                 (Mini.line_of
                    (VDict [("type", VStr "tool_result");
                            ("error", VStr "boom"); ("data", VStr "7")])))
              _ _ _ eq_refl ltac:(discriminate) eq_refl)
    as (_ & _ & Hsingle & _ & Hbatch).
  split.
  - apply Hsingle. discriminate.
  - apply (Hbatch (VStr "boom")); reflexivity.
Defined.

Lemma lines_text_cons_app (l : string) (lines : list string) (rest : string) :
  lines_text (l :: lines) ++ rest = l ++ newline ++ lines_text lines ++ rest.
Proof. simpl. now rewrite !string_app_assoc. Qed.



Section PipeBatch.

Context `{PyRuntime}.

(** What [call_tools_parallel] does with a response line that parses to a
    document. *)
Lemma pipe_parallel_line calls st line rest resp :
  readline (Pipe.proto_in st) = (line, rest) ->
  line <> "" ->
  json_loads line = Return resp ->
  fst (Pipe.call_tools_parallel calls st)
  = (py_get resp "results" (VList []) ≫= fun results =>
     py_iter results ≫= Pipe.decode_slots).
Proof.
  intros Hread Hline Hdoc. unfold Pipe.call_tools_parallel.
  destruct (Pipe.build_batch calls (Pipe._call_id st)) as [batch n].
  rewrite Hread. apply String.eqb_neq in Hline. rewrite Hline. simpl.
  now rewrite Hdoc.
Qed.

End PipeBatch.

(** X8: what [call_tools_parallel] makes of a batch response that is not
    shaped as expected.  Without a [results] member it returns the empty
    list, however many calls were sent; a [results] member that cannot be
    iterated raises TypeError; a response that is not an object raises
    AttributeError; and an element of [results] that is not an object makes
    the call raise, so that no result of the batch is returned:
    AttributeError when the elements before it were decoded. *)
Theorem pipe_malformed_batch `{PyRuntime} :
  forall (calls : list (string * value)) (st : Pipe.state)
         (line rest : string) (resp : value),
    readline (Pipe.proto_in st) = (line, rest) ->
    line <> "" ->
    json_loads line = Return resp ->
    (is_dict resp = false ->
     fst (Pipe.call_tools_parallel calls st) = Raise AttributeError)
    /\ (forall d,
          resp = VDict d -> assoc "results" d = None ->
          fst (Pipe.call_tools_parallel calls st) = Return [])
    /\ (forall d v,
          resp = VDict d -> assoc "results" d = Some v ->
          py_iter v = Raise TypeError ->
          fst (Pipe.call_tools_parallel calls st) = Raise TypeError)
    /\ (forall d before r after,
          resp = VDict d ->
          assoc "results" d = Some (VList (before ++ r :: after)%list) ->
          Forall (fun r => decodable r = true) before ->
          is_dict r = false ->
          fst (Pipe.call_tools_parallel calls st) = Raise AttributeError)
    /\ (forall d rs,
          resp = VDict d -> assoc "results" d = Some (VList rs) ->
          Exists (fun r => is_dict r = false) rs ->
          exists e, fst (Pipe.call_tools_parallel calls st) = Raise e).
Proof.
  intros calls st line rest resp Hread Hline Hdoc.
  rewrite (pipe_parallel_line calls st line rest resp Hread Hline Hdoc).
  split; [|split; [|split; [|split]]].
  - intros Hnot. destruct resp; try discriminate; reflexivity.
  - intros d -> Hres. simpl. now rewrite Hres.
  - intros d v -> Hres Hiter. simpl. rewrite Hres. simpl. now rewrite Hiter.
  - intros d before r after -> Hres Hbefore Hr. simpl. rewrite Hres. simpl.
    now apply pipe_decode_slots_stops.
  - intros d rs -> Hres Hex. simpl. rewrite Hres. simpl.
    now apply pipe_decode_slots_raises.
Qed.

(** Two calls answered by a batch whose second element is a bare string:
    the first result is lost with it. *)
Lemma pipe_malformed_batch_witness :
  fst (Pipe.call_tools_parallel [("a", VNone); ("b", VNone)]
         (Pipe.initial
            (Mini.line_of
               (VDict [("results",
                        VList [VDict [("data", VStr "1")]; VStr "oops"])]))))
  = Raise AttributeError.
Proof.
  destruct (pipe_malformed_batch [("a", VNone); ("b", VNone)]
              (Pipe.initial
                 (Mini.line_of
                    (VDict [("results",
                             VList [VDict [("data", VStr "1")];
                                    VStr "oops"])])))
              _ _ _ eq_refl ltac:(discriminate) eq_refl)
    as (_ & _ & _ & Helem & _).
  apply (Helem [("results", VList [VDict [("data", VStr "1")]; VStr "oops"])]
           [VDict [("data", VStr "1")]] (VStr "oops") []);
    [reflexivity | reflexivity | repeat constructor | reflexivity].
Defined.

(** * Further properties of the HTTP client *)

Section HttpClient.

Context `{PyRuntime} {W : Type}.
Variable urlopen : W -> string -> string -> Http.http_outcome * W.
Variable cfg : Http.config.

(** The remote side after the one round trip of a call. *)
Lemma http_call_tool_remote name args w :
  Http._CALLBACK_URL cfg <> "" ->
  snd (Http.call_tool urlopen cfg name args w)
  = snd (urlopen w (Http._CALLBACK_URL cfg)
           (json_dumps (Http.request_doc cfg name args))).
Proof.
  intros Hurl. unfold Http.call_tool.
  apply String.eqb_neq in Hurl. rewrite Hurl.
  now destruct (urlopen w _ _).
Qed.

Lemma http_call_tool_no_url name args w :
  Http._CALLBACK_URL cfg = "" ->
  Http.call_tool urlopen cfg name args w
  = (Raise (RuntimeError "call_tool: no callback URL configured"), w).
Proof. intros Hurl. unfold Http.call_tool. now rewrite Hurl. Qed.

(** The remote side after a thread has finished. *)
Lemma run_thread_remote calls ps i :
  Http.remote (Http.run_thread urlopen cfg calls ps i)
  = match calls !! i with
    | Some (name, args) =>
        snd (Http.call_tool urlopen cfg name (py_or args (VDict []))
               (Http.remote ps))
    | None => Http.remote ps
    end.
Proof.
  unfold Http.run_thread. destruct (calls !! i) as [[name args]|]; [|reflexivity].
  unfold Http._worker.
  destruct (Http.call_tool urlopen cfg name (py_or args (VDict []))
              (Http.remote ps)) as [[v|e] w']; reflexivity.
Qed.

Lemma run_threads_remote calls schedule ps :
  Http.remote (fold_left (Http.run_thread urlopen cfg calls) schedule ps)
  = fold_left
      (fun w i =>
         match calls !! i with
         | Some (name, args) =>
             snd (Http.call_tool urlopen cfg name (py_or args (VDict [])) w)
         | None => w
         end)
      schedule (Http.remote ps).
Proof.
  revert ps. induction schedule as [|i schedule IH]; intros ps; simpl.
  - reflexivity.
  - now rewrite IH, run_thread_remote.
Qed.

End HttpClient.

(** X9: without a callback URL the HTTP client contacts nobody.
    [call_tool] raises RuntimeError (no callback URL configured) and leaves
    the remote side as it was; [call_tools_parallel] on a non-empty list
    raises that same error, once every thread has finished, and the remote
    side is untouched as well. *)
Theorem http_no_callback_url `{PyRuntime} :
  forall W (urlopen : W -> string -> string -> Http.http_outcome * W)
         (cfg : Http.config),
    Http._CALLBACK_URL cfg = "" ->
    (forall name args w,
       Http.call_tool urlopen cfg name args w
         = (Raise (RuntimeError "call_tool: no callback URL configured"), w))
    /\ (forall schedule calls w,
          calls <> [] ->
          schedule ≡ₚ seq 0 (length calls) ->
          fst (Http.call_tools_parallel urlopen cfg schedule calls w)
            = (Raise (RuntimeError "call_tool: no callback URL configured"),
               w)
          /\ map Http.unit_of
               (snd (Http.call_tools_parallel urlopen cfg schedule calls w))
             = schedule).
Proof.
  intros W urlopen cfg Hurl. split.
  - intros name args w. now apply http_call_tool_no_url.
  - intros schedule calls w Hne Hperm.
    destruct (threads_joined urlopen cfg calls schedule w Hperm)
      as [[Hrl Hel Hst Hgen Hpend] Hfin].
    unfold Http.call_tools_parallel. simpl.
    set (ps := fold_left (Http.run_thread urlopen cfg calls) schedule
                 (Http.mk_par (replicate (length calls) VNone)
                    (replicate (length calls) None) w [])) in *.
    assert (Hw : Http.remote ps = w).
    { subst ps. rewrite run_threads_remote. simpl.
      clear -Hurl.
      induction schedule as [|i schedule IH]; simpl; [reflexivity|].
      destruct (calls !! i) as [[name args]|]; [|exact IH].
      rewrite http_call_tool_no_url by exact Hurl. exact IH. }
    assert (Hfail : forall i r, Http.Completed i r ∈ Http.finished ps ->
              r = Raise (RuntimeError "call_tool: no callback URL configured")).
    { intros i r Hr. destruct (Hgen _ _ Hr) as (name & args & w0 & _ & <-).
      now rewrite http_call_tool_no_url. }
    split; [|exact Hfin]. rewrite Hw. f_equal.
    destruct (Http.first_error (Http.errors ps)) as [e|] eqn:Hfirst.
    + destruct (first_error_Some _ _ Hfirst) as (i & Hi & _).
      assert (Hlt : i < length calls).
      { rewrite <- Hel. eapply lookup_lt_Some, Hi. }
      destruct (unit_of_elem (Http.finished ps) i) as [r Hr].
      { rewrite Hfin, Hperm. apply elem_of_seq. lia. }
      pose proof (Hfail _ _ Hr) as ->. specialize (Hst _ _ Hr).
      simpl in Hst. congruence.
    + exfalso. destruct calls as [|c calls]; [now apply Hne|].
      destruct (unit_of_elem (Http.finished ps) 0) as [r Hr].
      { rewrite Hfin, Hperm. apply elem_of_seq. simpl. lia. }
      pose proof (Hfail _ _ Hr) as ->. specialize (Hst _ _ Hr). simpl in Hst.
      apply first_error_None with (i := 0)
        (e := RuntimeError "call_tool: no callback URL configured") in Hfirst.
      now apply Hfirst.
Qed.

(** An execution started without [_SANDBOX_CALLBACK_URL]. *)
Lemma http_no_callback_url_witness :
  (forall name args w,
     Http.call_tool Mini.counting_remote (Http.mk_config "" "exec-1")
       name args w
       = (Raise (RuntimeError "call_tool: no callback URL configured"), w))
  /\ (forall schedule calls w,
        calls <> [] ->
        schedule ≡ₚ seq 0 (length calls) ->
        fst (Http.call_tools_parallel Mini.counting_remote
               (Http.mk_config "" "exec-1") schedule calls w)
          = (Raise (RuntimeError "call_tool: no callback URL configured"), w)
        /\ map Http.unit_of
             (snd (Http.call_tools_parallel Mini.counting_remote
                     (Http.mk_config "" "exec-1") schedule calls w))
           = schedule).
Proof.
  exact (http_no_callback_url nat Mini.counting_remote
           (Http.mk_config "" "exec-1") eq_refl).
Defined.



(** X11: how [call_tool] of the HTTP variant fails once the request was
    sent.  An HTTP error status raises RuntimeError with the status and the
    response body; any other transport exception raises RuntimeError with
    its text; a body on which [json.loads] raises (JSONDecodeError for a
    body that is not JSON) raises that exception and a JSON body that is not
    an object raises AttributeError, neither wrapped in RuntimeError; an object with a truthy [error] member raises RuntimeError
    with that error, whether or not it also carries [data]. *)
Theorem http_call_tool_failures `{PyRuntime} :
  forall W (urlopen : W -> string -> string -> Http.http_outcome * W)
         (cfg : Http.config) (name : string) (args : value) (w w' : W)
         (outcome : Http.http_outcome),
    Http._CALLBACK_URL cfg <> "" ->
    urlopen w (Http._CALLBACK_URL cfg)
      (json_dumps (Http.request_doc cfg name args)) = (outcome, w') ->
    (forall code body,
       outcome = Http.HTTPError code body ->
       Http.call_tool urlopen cfg name args w
         = (Raise (RuntimeError
              ("Tool '" ++ name ++ "': HTTP " ++ str_of_nat code ++ ": "
               ++ body)), w'))
    /\ (forall text,
          outcome = Http.OtherException text ->
          Http.call_tool urlopen cfg name args w
            = (Raise (RuntimeError
                 ("Tool '" ++ name ++ "': request failed: " ++ text)), w'))
    /\ (forall body e,
          outcome = Http.Body body ->
          json_loads body = Raise e ->
          Http.call_tool urlopen cfg name args w = (Raise e, w'))
    /\ (forall body doc,
          outcome = Http.Body body ->
          json_loads body = Return doc ->
          is_dict doc = false ->
          Http.call_tool urlopen cfg name args w
            = (Raise AttributeError, w'))
    /\ (forall body d e,
          outcome = Http.Body body ->
          json_loads body = Return (VDict d) ->
          assoc "error" d = Some e ->
          truthy e = true ->
          Http.call_tool urlopen cfg name args w
            = (Raise (RuntimeError
                 ("Tool '" ++ name ++ "' failed: " ++ format_value e)), w')).
Proof.
  intros W urlopen cfg name args w w' outcome Hurl Hnet.
  unfold Http.call_tool. apply String.eqb_neq in Hurl. rewrite Hurl, Hnet.
  split; [|split; [|split; [|split]]].
  - now intros code body ->.
  - now intros text ->.
  - intros body e -> Hdoc. unfold Http.decode_body. now rewrite Hdoc.
  - intros body doc -> Hdoc Hnot. unfold Http.decode_body. rewrite Hdoc.
    destruct doc; try discriminate; reflexivity.
  - intros body d e -> Hdoc Herr Htruthy. unfold Http.decode_body.
    rewrite Hdoc. simpl. now rewrite Herr, Htruthy.
Qed.

(** The refusing remote answers the first request with status 500. *)
Lemma http_call_tool_failures_witness :
  Http.call_tool Mini.failing_remote Mini.demo_config "search" VNone 0
  = (Raise (RuntimeError "Tool 'search': HTTP 500: down"), 1).
Proof.
  destruct (http_call_tool_failures nat Mini.failing_remote Mini.demo_config
              "search" VNone 0 1 (Http.HTTPError 500 "down")
              ltac:(discriminate) eq_refl) as (Hstatus & _).
  exact (Hstatus 500 "down" eq_refl).
Defined.

(** * Further properties of the result sink and the codec *)

Lemma http_set_result_value (data files : value) (s : Http.sink) :
  Http._final_result (snd (Http.set_result data files s)) = data.
Proof.
  unfold Http.set_result.
  destruct files; simpl; try reflexivity; now destruct (py_iter _).
Qed.

Lemma pipe_run_op_keeps_result `{PyRuntime} (o : Pipe.op) (st : Pipe.state) :
  match o with
  | Pipe.SetResult y => Pipe._final_result (Pipe.run_op o st) = y
  | _ => Pipe._final_result (Pipe.run_op o st) = Pipe._final_result st
  end.
Proof.
  destruct o as [name args|calls|data]; simpl.
  - unfold Pipe.call_tool.
    destruct (readline (Pipe.proto_in st)) as [line rest].
    now destruct (String.eqb line "").
  - unfold Pipe.call_tools_parallel.
    destruct (Pipe.build_batch calls (Pipe._call_id st)) as [batch n].
    destruct (readline (Pipe.proto_in st)) as [line rest].
    now destruct (String.eqb line "").
  - reflexivity.
Qed.

Lemma py_or_idem (a : value) :
  py_or (py_or a (VDict [])) (VDict []) = py_or a (VDict []).
Proof.
  unfold py_or. destruct (truthy a) eqn:Ha; [now rewrite Ha | reflexivity].
Qed.

(** X13: the sink holds the last value set.  In the HTTP variant the value
    after any sequence of [set_result] calls is the data of the last call,
    even when that call raised on its [files]; in the pipe variant it is the
    data of the last [set_result], whatever tool calls the script makes
    after it. *)
Theorem set_result_last_write_wins `{PyRuntime} :
  (forall (writes : list (value * value)) (y files : value) (s : Http.sink),
     Http._final_result
       (fold_left (fun s w => snd (Http.set_result (fst w) (snd w) s))
          (writes ++ [(y, files)]) s) = y)
  /\ (forall (before after : list Pipe.op) (y : value) (st : Pipe.state),
        forallb (fun o => match o with
                          | Pipe.SetResult _ => false
                          | _ => true
                          end) after = true ->
        Pipe._final_result
          (Pipe.run_script (before ++ Pipe.SetResult y :: after) st) = y).
Proof.
  split.
  - intros writes y files s. rewrite fold_left_app. simpl.
    apply http_set_result_value.
  - intros before after y st Hcalls.
    assert (Hgen : forall st0,
      Pipe._final_result (fold_left (fun st o => Pipe.run_op o st) after st0)
      = Pipe._final_result st0).
    { induction after as [|o after IH]; intros st0; simpl; [reflexivity|].
      simpl in Hcalls. apply andb_prop in Hcalls as [Ho Hcalls].
      rewrite (IH Hcalls). pose proof (pipe_run_op_keeps_result o st0) as Hop.
      destruct o; try discriminate; exact Hop. }
    unfold Pipe.run_script. rewrite fold_left_app. simpl.
    now rewrite Hgen.
Qed.

(** A script that sets its result and then makes one more call, which finds
    the pipe closed. *)
Lemma set_result_last_write_wins_witness :
  Http._final_result
    (fold_left (fun s w => snd (Http.set_result (fst w) (snd w) s))
       ([(VInt 1, VNone)] ++ [(VInt 2, VInt 0)]) Http.initial_sink) = VInt 2
  /\ Pipe._final_result
       (Pipe.run_script
          ([Pipe.SetResult (VInt 1)]
           ++ Pipe.SetResult (VInt 2) :: [Pipe.CallTool "search" VNone])
          (Pipe.initial "")) = VInt 2.
Proof.
  split.
  - apply (proj1 set_result_last_write_wins).
  - apply (proj2 set_result_last_write_wins). reflexivity.
Defined.

(** X14: the two variants decode a response object's payload alike.  For
    every object, with or without a [data] member, both give the same
    outcome: the parsed value of a string payload that is JSON, the string
    itself when [json.loads] raises JSONDecodeError, any other payload
    unchanged, the empty string for a missing payload; and when [json.loads]
    raises another exception, both let that exception escape. *)
Theorem decode_data_variants_agree `{PyRuntime} :
  forall (d : list (string * value)),
    Pipe.decode_data (VDict d) = Http.decode_data (VDict d)
    /\ Http.decode_data (VDict d)
       = reread (default (VStr "") (assoc "data" d)).
Proof.
  intros d. now rewrite pipe_decode_data_reread, http_decode_data_reread.
Qed.

(** X15: in the HTTP variant a parallel call of one tool is the single
    call.  It makes the request [call_tool] makes for these arguments,
    leaves the remote side in the same state, and returns the one-element
    list of the value [call_tool] returns, or raises what it raises. *)
Theorem http_parallel_of_one_is_call_tool `{PyRuntime} :
  forall W (urlopen : W -> string -> string -> Http.http_outcome * W)
         (cfg : Http.config) (name : string) (args : value) (w : W),
    Http.call_tools_parallel urlopen cfg [0] [(name, args)] w
    = (match fst (Http.call_tool urlopen cfg name args w) with
       | Return v => Return [v]
       | Raise e => Raise e
       end,
       snd (Http.call_tool urlopen cfg name args w),
       [Http.Completed 0 (fst (Http.call_tool urlopen cfg name args w))]).
Proof.
  intros W urlopen cfg name args w.
  assert (Hsame : Http.call_tool urlopen cfg name (py_or args (VDict [])) w
                  = Http.call_tool urlopen cfg name args w).
  { unfold Http.call_tool, Http.request_doc. now rewrite py_or_idem. }
  unfold Http.call_tools_parallel, Http.run_thread, Http._worker. simpl.
  rewrite Hsame.
  now destruct (Http.call_tool urlopen cfg name args w) as [[v|e] w'].
Qed.

(** * Parallel calls against a remote whose answers do not depend on order *)

Section Stateless.

Context `{PyRuntime} {W : Type}.
Variable urlopen : W -> string -> string -> Http.http_outcome * W.
Variable cfg : Http.config.

Hypothesis answers_fixed :
  forall w1 w2 url payload,
    fst (urlopen w1 url payload) = fst (urlopen w2 url payload).

Lemma http_call_tool_answer_fixed name args w1 w2 :
  fst (Http.call_tool urlopen cfg name (py_or args (VDict [])) w1)
  = fst (Http.call_tool urlopen cfg name args w2).
Proof.
  unfold Http.call_tool, Http.request_doc. rewrite py_or_idem.
  destruct (String.eqb (Http._CALLBACK_URL cfg) ""); [reflexivity|].
  pose proof (answers_fixed w1 w2 (Http._CALLBACK_URL cfg)
                (json_dumps
                   (VDict [("execution_id", VStr (Http._EXECUTION_ID cfg));
                           ("name", VStr name);
                           ("args", py_or args (VDict []))]))) as Hfix.
  destruct (urlopen w1 _ _) as [o1 w1'], (urlopen w2 _ _) as [o2 w2'].
  simpl in Hfix. now subst o2.
Qed.

(** After the join the recorded outcome of every unit is that of the single
    call. *)
Lemma joined_unit_outcome calls schedule w i name args :
  schedule ≡ₚ seq 0 (length calls) ->
  calls !! i = Some (name, args) ->
  Http.Completed i (fst (Http.call_tool urlopen cfg name args w))
    ∈ Http.finished
        (fold_left (Http.run_thread urlopen cfg calls) schedule
           (Http.mk_par (replicate (length calls) VNone)
              (replicate (length calls) None) w [])).
Proof.
  intros Hperm Hcall.
  destruct (threads_joined urlopen cfg calls schedule w Hperm)
    as [[_ _ _ Hgen _] Hfin].
  assert (Hi : i < length calls) by (eapply lookup_lt_Some, Hcall).
  destruct (unit_of_elem
              (Http.finished
                 (fold_left (Http.run_thread urlopen cfg calls) schedule
                    (Http.mk_par (replicate (length calls) VNone)
                       (replicate (length calls) None) w []))) i) as [r Hr].
  { rewrite Hfin, Hperm. apply elem_of_seq. lia. }
  destruct (Hgen _ _ Hr) as (name' & args' & w0 & Hcall' & Hout).
  rewrite Hcall in Hcall'. injection Hcall' as <- <-.
  now rewrite <- Hout, (http_call_tool_answer_fixed name args w0 w) in Hr.
Qed.

End Stateless.

(** X16: against a remote whose answer to a request does not depend on the
    requests it has seen, [call_tools_parallel] of the HTTP variant gives,
    for every order in which the threads finish, what calling [call_tool] on
    each element in turn gives: the list of the returned values in input
    order, or the exception of the first call in input order that raises. *)
Theorem http_parallel_as_sequential `{PyRuntime} :
  forall W (urlopen : W -> string -> string -> Http.http_outcome * W)
         (cfg : Http.config) (schedule : list nat)
         (calls : list (string * value)) (w : W),
    (forall w1 w2 url payload,
       fst (urlopen w1 url payload) = fst (urlopen w2 url payload)) ->
    schedule ≡ₚ seq 0 (length calls) ->
    fst (fst (Http.call_tools_parallel urlopen cfg schedule calls w))
    = match Http.first_error
              (map (fun c =>
                      match fst (Http.call_tool urlopen cfg (fst c) (snd c) w)
                      with
                      | Raise e => Some e
                      | Return _ => None
                      end) calls)
      with
      | Some e => Raise e
      | None =>
          Return (map (fun c =>
                         match fst (Http.call_tool urlopen cfg (fst c)
                                      (snd c) w) with
                         | Return v => v
                         | Raise _ => VNone
                         end) calls)
      end.
Proof.
  intros W urlopen cfg schedule calls w Hfixed Hperm.
  destruct (threads_joined urlopen cfg calls schedule w Hperm)
    as [[Hrl Hel Hst Hgen Hpend] Hfin].
  pose proof (joined_unit_outcome urlopen cfg Hfixed calls schedule w)
    as Hout.
  unfold Http.call_tools_parallel. simpl.
  set (ps := fold_left (Http.run_thread urlopen cfg calls) schedule
               (Http.mk_par (replicate (length calls) VNone)
                  (replicate (length calls) None) w [])) in *.
  set (E := fun c : string * value =>
              match fst (Http.call_tool urlopen cfg (fst c) (snd c) w) with
              | Raise e => Some e
              | Return _ => None
              end).
  set (V := fun c : string * value =>
              match fst (Http.call_tool urlopen cfg (fst c) (snd c) w) with
              | Return v => v
              | Raise _ => VNone
              end).
  assert (Herrors : Http.errors ps = map E calls).
  { apply list_eq. intros i. rewrite lookup_map.
    destruct (calls !! i) as [[name args]|] eqn:Hcall; simpl.
    - specialize (Hst _ _ (Hout i name args Hperm Hcall)).
      unfold E. simpl.
      destruct (fst (Http.call_tool urlopen cfg name args w));
        [now destruct Hst | exact Hst].
    - apply lookup_ge_None. rewrite Hel. now apply lookup_ge_None. }
  rewrite Herrors.
  destruct (Http.first_error (map E calls)) as [e|] eqn:Hfirst; [reflexivity|].
  f_equal. apply list_eq. intros i. rewrite lookup_map.
  destruct (calls !! i) as [[name args]|] eqn:Hcall; simpl.
  - specialize (Hst _ _ (Hout i name args Hperm Hcall)).
    pose proof (proj1 (first_error_None _) Hfirst i) as Hnone.
    rewrite lookup_map, Hcall in Hnone. unfold E, V in *. simpl in *.
    destruct (fst (Http.call_tool urlopen cfg name args w)) as [v|e].
    + now destruct Hst.
    + now destruct (Hnone e).
  - apply lookup_ge_None. rewrite Hrl. now apply lookup_ge_None.
Qed.

(** Three calls against the echoing remote, finishing in the order 2, 0,
    1. *)
Lemma http_parallel_as_sequential_witness :
  fst (fst (Http.call_tools_parallel Mini.echo_remote Mini.demo_config
              [2; 0; 1] [("a", VNone); ("b", VInt 1); ("c", VNone)] 0))
  = match Http.first_error
            (map (fun c =>
                    match fst (Http.call_tool Mini.echo_remote
                                 Mini.demo_config (fst c) (snd c) 0) with
                    | Raise e => Some e
                    | Return _ => None
                    end) [("a", VNone); ("b", VInt 1); ("c", VNone)])
    with
    | Some e => Raise e
    | None =>
        Return (map (fun c =>
                       match fst (Http.call_tool Mini.echo_remote
                                    Mini.demo_config (fst c) (snd c) 0) with
                       | Return v => v
                       | Raise _ => VNone
                       end) [("a", VNone); ("b", VInt 1); ("c", VNone)])
    end.
Proof.
  apply (http_parallel_as_sequential nat Mini.echo_remote Mini.demo_config
           [2; 0; 1] [("a", VNone); ("b", VInt 1); ("c", VNone)] 0).
  - reflexivity.
  - simpl. etrans; [apply Permutation_swap|].
    apply Permutation_skip, Permutation_swap.
Defined.

(** * Package installation (HTTP variant) *)


